(** * browser-control: the WebSocket command dispatcher of [src/index.ts]

    A shallow embedding of the dispatcher: the page registry [openPages], the
    ten command handlers, [messageSwitch], and the per-connection glue of
    [wss.on("connection")].  The browser-automation engine (puppeteer) is an
    external collaborator; it is modelled as a deterministic oracle that
    answers each call from the history of calls made so far, and every call
    the handlers make is appended to a log so that statements such as
    "no engine call is performed" can be made and proved. *)

From Stdlib Require Import String List ZArith PrimFloat Lia.
From stdpp Require Import base option list gmap strings pretty.
Import ListNotations.
Local Open Scope string_scope.
Set Warnings "-register-all".

(** ** Data model *)

(** A puppeteer [Page] is an opaque object; a handle is told apart from the
    others by the number the engine gave it.  Objects are truthy in
    JavaScript, so a registry entry holding a [Page] always passes the
    [if (!page)] and [if (openPages[id])] tests. *)
Inductive Page : Type := PageHandle (n : nat).

(** The [Browser] object stored in the global [b] once [puppeteer.launch]
    has resolved. *)
Inductive Browser : Type := FirefoxBrowser.

(** [SerializedAXNode]: a node of the accessibility snapshot.  The optional
    [children] array is [None] when the property is absent; [Some []] is a
    present but empty array. *)
Inductive AXNode : Type :=
  mkAXNode {
    role : string;
    name : option string;
    children : option (list AXNode)
  }.

(** One entry of the array built by the in-page callback of
    [getInteractiveElements]. *)
Record InteractiveElement : Type :=
  mkInteractiveElement {
    ie_visible : bool;
    ie_class : string;
    ie_label : option string;
    ie_description : option string;
    ie_role : option string;
    ie_href : option string;
    ie_text : string;
    ie_id : string;
    ie_assigned : string;
    ie_tagName : string;
    ie_type : option string;
    ie_value : option string
  }.

(** The values handed to [JSON.stringify]: handler results and the status
    notification.  An object literal is the list of its properties in source
    order. *)
Inductive JsVal : Type :=
| JUndefined
| JBool (b : bool)
| JStr (s : string)
| JNode (n : AXNode)
| JElem (e : InteractiveElement)
| JArr (items : list JsVal)
| JObj (fields : list (string * JsVal)).

(** Property lookup on an object value; [None] stands for [undefined]. *)
Fixpoint assoc (k : string) (fields : list (string * JsVal)) : option JsVal :=
  match fields with
  | [] => None
  | (k', v) :: rest => if String.eqb k k' then Some v else assoc k rest
  end.

Definition prop (k : string) (v : JsVal) : option JsVal :=
  match v with
  | JObj fields => assoc k fields
  | _ => None
  end.

(** The members of the union type [Message], as one record: [message] is
    the discriminant, the other fields are those the variants carry.  The
    optional flags [enter?] and [click?] are [None] when omitted. *)
Record Request : Type :=
  mkRequest {
    message : string;
    pageId : string;
    url : string;
    selector : string;
    text : string;
    enter : option bool;
    x : float;
    y : float;
    click : option bool
  }.

(** JavaScript truthiness of an optional boolean: [undefined] and [false]
    are falsy. *)
Definition truthy (flag : option bool) : bool :=
  match flag with
  | Some true => true
  | _ => false
  end.

(** ** The accessibility-tree flattening of [observe] *)

(** [recurseChildren node] pushes onto the shared array [items]; the array
    is threaded through explicitly.  The function is declared [async] but
    contains no [await], so each call runs to completion before the [for]
    loop of its caller continues. *)
Fixpoint recurseChildren (node : AXNode) (items : list AXNode) : list AXNode :=
  match children node with
  | None => items
  | Some cs =>
      fold_left (fun acc child => recurseChildren child acc) cs (items ++ [node])%list
  end.

(** Reference traversal: every node of the tree, parent before children,
    children left to right. *)
Fixpoint preorder (node : AXNode) : list AXNode :=
  node :: match children node with
          | None => []
          | Some cs => flat_map preorder cs
          end.

(** The test [!node.children] succeeds exactly when the property is absent:
    an empty array is an object, hence truthy. *)
Definition hasChildrenField (node : AXNode) : bool :=
  match children node with
  | None => false
  | Some _ => true
  end.

(** "At least one child in the source tree". *)
Definition hasChild (node : AXNode) : bool :=
  match children node with
  | Some (_ :: _) => true
  | _ => false
  end.

(** Snapshots in which no node carries an empty [children] array. *)
Fixpoint noEmptyChildren (node : AXNode) : bool :=
  match children node with
  | None => true
  | Some [] => false
  | Some cs => forallb noEmptyChildren cs
  end.

(** Induction on a node with the induction hypothesis available for every
    element of its [children] array. *)
Section AXNodeInduction.

Variable P : AXNode -> Prop.
Hypothesis step :
  forall r n cs,
    match cs with Some l => Forall P l | None => True end ->
    P (mkAXNode r n cs).

Fixpoint AXNode_nested_ind (node : AXNode) : P node :=
  match node with
  | mkAXNode r n cs =>
      step r n cs
        match cs return match cs with Some l => Forall P l | None => True end with
        | None => I
        | Some l =>
            (fix all (l : list AXNode) : Forall P l :=
               match l with
               | [] => @List.Forall_nil _ P
               | c :: l' => @List.Forall_cons _ P c l' (AXNode_nested_ind c) (all l')
               end) l
        end
  end.

End AXNodeInduction.

(** ** The automation engine *)

(** The calls the handlers make on the engine, with their arguments. *)
Inductive EngineCall : Type :=
| Launch (browser : string) (headless : bool)
| Pages (br : Browser)
| NewPage (br : Browser)
| Goto (p : Page) (url : string)
| Content (p : Page)
| PageClick (p : Page) (selector : string)
| PageType (p : Page) (selector text : string) (delay : Z)
| KeyboardType (p : Page) (text : string)
| KeyboardPress (p : Page) (key : string)
| MouseClick (p : Page) (x y : float)
| MouseMove (p : Page) (x y : float)
| Screenshot (p : Page) (encoding : string)
| Evaluate (p : Page)
| AccessibilitySnapshot (p : Page).

(** What a call resolves to when it does not throw. *)
Definition ret_type (c : EngineCall) : Type :=
  match c with
  | Launch _ _ => Browser
  | Pages _ => list Page
  | NewPage _ => Page
  | Content _ => string
  | Screenshot _ _ => string
  | Evaluate _ => list InteractiveElement
  | AccessibilitySnapshot _ => option AXNode
  | _ => unit
  end.

(** What a handler can throw: a [TypeError] of the runtime (a property read
    on [undefined]) or whatever the engine threw. *)
Inductive Exn : Type :=
| TypeError
| EngineError (msg : string).

(** The engine: given the calls made so far and the current call, it either
    throws or returns. *)
Definition Engine : Type :=
  forall (history : list EngineCall) (c : EngineCall), Exn + ret_type c.

(** ** Process state and the handler monad *)

(** The module-level variables of [index.ts] together with the log of
    engine calls.  [openPages] holds the properties the program has written
    to the object; what a read of the object returns is given by
    [lookupPage] below. *)
Record World : Type :=
  mkWorld {
    openPages : gmap string Page;
    b : option Browser;
    calls : list EngineCall
  }.

Definition M (A : Type) : Type := World -> (Exn + A) * World.

Definition ret {A} (a : A) : M A := fun w => (inr a, w).

Definition throw {A} (e : Exn) : M A := fun w => (inl e, w).

Definition bind {A B} (m : M A) (k : A -> M B) : M B :=
  fun w =>
    match m w with
    | (inl e, w') => (inl e, w')
    | (inr a, w') => k a w'
    end.

(** [try { body } catch (err) { handler }]. *)
Definition try_catch {A} (body : M A) (handler : Exn -> M A) : M A :=
  fun w =>
    match body w with
    | (inl e, w') => handler e w'
    | (inr a, w') => (inr a, w')
    end.

Notation "x <- c1 ;; c2" := (bind c1 (fun x => c2))
  (at level 100, c1 at next level, right associativity).
Notation "c1 ;;; c2" := (bind c1 (fun _ => c2))
  (at level 100, right associativity).

(** [openPages] is created by the literal [{}], so its prototype is
    [Object.prototype]: a read at one of these names, when the program has
    written no property of that name, returns the inherited member. *)
Definition objectPrototypeKeys : list string :=
  ["constructor"; "__defineGetter__"; "__defineSetter__"; "hasOwnProperty";
   "__lookupGetter__"; "__lookupSetter__"; "isPrototypeOf";
   "propertyIsEnumerable"; "toString"; "valueOf"; "__proto__";
   "toLocaleString"].

Definition inheritedName (id : string) : bool :=
  existsb (String.eqb id) objectPrototypeKeys.

(** What [openPages[id]] evaluates to: a page the program stored, a member
    inherited from [Object.prototype] (a function or an object: truthy, and
    with none of the members of a [Page]), or [undefined]. *)
Inductive PageSlot : Type :=
| OwnPage (p : Page)
| InheritedMember
| Undefined.

Definition lookupPage (pages : gmap string Page) (id : string) : PageSlot :=
  match pages !! id with
  | Some p => OwnPage p
  | None => if inheritedName id then InheritedMember else Undefined
  end.

(** [openPages[id]]. *)
Definition readPage (id : string) : M PageSlot :=
  fun w => (inr (lookupPage (openPages w) id), w).

(** [openPages[id] = page]. *)
Definition writePage (id : string) (page : Page) : M unit :=
  fun w => (inr tt, mkWorld (<[id := page]> (openPages w)) (b w) (calls w)).

Definition readBrowser : M (option Browser) :=
  fun w => (inr (b w), w).

(** [b = browser]. *)
Definition writeBrowser (br : Browser) : M unit :=
  fun w => (inr tt, mkWorld (openPages w) (Some br) (calls w)).

(** A member access on a value that may be [undefined]. *)
Definition deref {A B} (o : option A) (k : A -> M B) : M B :=
  match o with
  | Some a => k a
  | None => throw TypeError
  end.

(** A use of [page] as a puppeteer page ([page.goto(...)],
    [page.keyboard.type(...)], ...).  On an inherited member the method or
    sub-object read is [undefined] and using it raises a [TypeError]; on
    [undefined] the property read itself does. *)
Definition member {B} (slot : PageSlot) (k : Page -> M B) : M B :=
  match slot with
  | OwnPage p => k p
  | InheritedMember | Undefined => throw TypeError
  end.

(** The object literals the handlers return. *)
Definition errorPayload (msg : string) : JsVal := JObj [("error", JStr msg)].

Section Handlers.

Variable engine : Engine.

(** [await <engine call>]: the call is logged, then the engine answers. *)
Definition call (c : EngineCall) : M (ret_type c) :=
  fun w => (engine (calls w) c, mkWorld (openPages w) (b w) (calls w ++ [c])%list).

Definition observe (m : Request) : M JsVal :=
  page <- readPage (pageId m) ;;
  snapshot <- member page (fun p => call (AccessibilitySnapshot p)) ;;
  match snapshot with
  | None => ret (errorPayload "No snapshot available")
  | Some root =>
      ret (JObj [("snapshot", JArr (map JNode (recurseChildren root [])))])
  end.

Definition getInteractiveElements (m : Request) : M JsVal :=
  page <- readPage (pageId m) ;;
  items <- member page (fun p => call (Evaluate p)) ;;
  ret (JObj [("items", JArr (map JElem items))]).

Definition typeText (m : Request) : M JsVal :=
  page <- readPage (pageId m) ;;
  try_catch
    (member page (fun p => call (KeyboardType p (text m))) ;;;
     if truthy (enter m)
     then member page (fun p => call (KeyboardPress p "Enter")) ;;; ret JUndefined
     else ret JUndefined)
    (fun _ => ret (errorPayload "Could not type")).

Definition moveMouse (m : Request) : M JsVal :=
  page <- readPage (pageId m) ;;
  try_catch
    (if truthy (click m)
     then member page (fun p => call (MouseClick p (x m) (y m))) ;;; ret JUndefined
     else member page (fun p => call (MouseMove p (x m) (y m))) ;;; ret JUndefined)
    (fun _ => ret (errorPayload "Could not move mouse")).

Definition clickHandler (m : Request) : M JsVal :=
  page <- readPage (pageId m) ;;
  try_catch
    (member page (fun p => call (PageClick p (selector m))) ;;;
     ret (JObj [("success", JBool true)]))
    (fun _ => ret (errorPayload "Error while executing click")).

Definition inputText (m : Request) : M JsVal :=
  page <- readPage (pageId m) ;;
  try_catch
    (member page (fun p => call (PageType p (selector m) (text m) 100)) ;;;
     if truthy (enter m)
     then member page (fun p => call (KeyboardPress p "Enter")) ;;; ret JUndefined
     else ret JUndefined)
    (fun _ => ret (errorPayload "Error while typing")).

Definition getHtml (m : Request) : M JsVal :=
  page <- readPage (pageId m) ;;
  html <- member page (fun p => call (Content p)) ;;
  ret (JStr html).

Definition createPage (m : Request) : M JsVal :=
  existing <- readPage (pageId m) ;;
  match existing with
  | OwnPage _ | InheritedMember => ret (errorPayload "Page already exists")
  | Undefined =>
      browser <- readBrowser ;;
      page <- deref browser (fun br => call (NewPage br)) ;;
      writePage (pageId m) page ;;;
      ret JUndefined
  end.

Definition navigate (m : Request) : M JsVal :=
  page <- readPage (pageId m) ;;
  try_catch
    (member page (fun p => call (Goto p (url m))) ;;; ret JUndefined)
    (fun _ => ret (errorPayload "Error while navigating")).

Definition getScreenshot (m : Request) : M JsVal :=
  page <- readPage (pageId m) ;;
  try_catch
    (data <- member page (fun p => call (Screenshot p "base64")) ;;
     ret (JObj [("screenshot", JStr data)]))
    (fun _ => ret (errorPayload "Error while taking screenshot")).

(** The [switch] of [messageSwitch], cases in source order. *)
Definition route (req : Request) : M JsVal :=
  if String.eqb (message req) "observe" then observe req
  else if String.eqb (message req) "get_interactive_elements"
       then getInteractiveElements req
  else if String.eqb (message req) "type_text" then typeText req
  else if String.eqb (message req) "get_screenshot" then getScreenshot req
  else if String.eqb (message req) "create_page" then createPage req
  else if String.eqb (message req) "navigate" then navigate req
  else if String.eqb (message req) "get_html" then getHtml req
  else if String.eqb (message req) "click" then clickHandler req
  else if String.eqb (message req) "input_text" then inputText req
  else if String.eqb (message req) "move_mouse" then moveMouse req
  else ret (errorPayload "No message found").

Definition messageSwitch (req : Request) : M JsVal :=
  page <- readPage (pageId req) ;;
  match page with
  | Undefined => ret (errorPayload "Page with requested pageId not found")
  | OwnPage _ | InheritedMember => route req
  end.

End Handlers.

(** ** The transport glue of [wss.on("connection")] *)

(** The server's view of one client socket: whether it is still open and
    the values it has passed to [socket.send(JSON.stringify(...))], oldest
    first. *)
Record Socket : Type :=
  mkSocket {
    isOpen : bool;
    outbox : list JsVal
  }.

Definition send (v : JsVal) (s : Socket) : Socket :=
  mkSocket (isOpen s) (outbox s ++ [v])%list.

(** What the [then] callback sends for an outcome of [messageSwitch]. *)
Definition replies (outcome : Exn + JsVal) : list JsVal :=
  match outcome with
  | inr res => [res]
  | inl _ => []
  end.

(** The notification sent from the connection callback. *)
Definition statusFrame (w : World) : JsVal :=
  match b w with
  | Some _ => JObj [("messge", JStr "browser_status"); ("status", JStr "up")]
  | None => JObj [("messge", JStr "browser_status"); ("status", JStr "down")]
  end.

Definition onConnection (w : World) : Socket :=
  send (statusFrame w) (mkSocket true []).

Section Transport.

Variable engine : Engine.

(** [JSON.parse(data.toString())] read at the type [Message]; [None] when
    [JSON.parse] throws.  The text [null], which parses to a value that has
    no property to read, is not in its range. *)
Variable JSON_parse : string -> option Request.

(** The ["message"] callback.  A rejected [messageSwitch] promise has no
    [catch]: its [then] callback never runs and nothing is sent.  What the
    runtime does with the unhandled rejection afterwards is outside the
    callback and is not modelled. *)
Definition onMessage (data : string) (st : World * Socket) : World * Socket :=
  let (w, s) := st in
  match JSON_parse data with
  | None => (w, send (errorPayload "Error while parsing JSON") s)
  | Some req =>
      match messageSwitch engine req w with
      | (inr res, w') => (w', send res s)
      | (inl _, w') => (w', s)
      end
  end.

(** A connection followed by the frames the client sends, each handled to
    completion before the next, with no other callback (another connection,
    the start-up closure) running in between. *)
Definition serve (w : World) (frames : list string) : World * Socket :=
  fold_left (fun st data => onMessage data st) frames (w, onConnection w).

(** A sequence of requests dispatched one after the other. *)
Definition run (reqs : list Request) (w : World) : World :=
  fold_left (fun w' req => snd (messageSwitch engine req w')) reqs w.

End Transport.

(** ** Startup *)

(** The state when the module has been loaded and the launch promise is
    still pending. *)
Definition initialWorld : World := mkWorld ∅ None [].

Section Startup.

Variable engine : Engine.

(** The immediately invoked closure at the top of the file.  When the
    browser reports no page, [pages[0]] is [undefined] and ["default"] still
    reads as [undefined] afterwards. *)
Definition startup : M unit :=
  br <- call engine (Launch "firefox" false) ;;
  writeBrowser br ;;;
  pages <- call engine (Pages br) ;;
  match pages with
  | first :: _ => writePage "default" first
  | [] => ret tt
  end.

End Startup.

(** ** Sample inputs *)

(** The ten discriminants of [Message]. *)
Definition knownCommands : list string :=
  ["create_page"; "navigate"; "get_html"; "click"; "input_text"; "type_text";
   "move_mouse"; "get_screenshot"; "get_interactive_elements"; "observe"].

(** An engine on which every call succeeds: the launched browser has one
    page, a new page is numbered by the length of the call history and
    [snapshot] is what the accessibility snapshot resolves to. *)
Definition quietEngine (snapshot : option AXNode) : Engine :=
  fun history c =>
    match c return Exn + ret_type c with
    | Launch _ _ => inr FirefoxBrowser
    | Pages _ => inr [PageHandle 0]
    | NewPage _ => inr (PageHandle (length history))
    | Goto _ _ => inr tt
    | Content _ => inr "<html></html>"
    | PageClick _ _ => inr tt
    | PageType _ _ _ _ => inr tt
    | KeyboardType _ _ => inr tt
    | KeyboardPress _ _ => inr tt
    | MouseClick _ _ _ => inr tt
    | MouseMove _ _ _ => inr tt
    | Screenshot _ _ => inr "aGVsbG8="
    | Evaluate _ => inr []
    | AccessibilitySnapshot _ => inr snapshot
    end.

(** An engine on which every call throws. *)
Definition brokenEngine : Engine :=
  fun _ _ => inl (EngineError "Protocol error").

Definition request (msg id : string) : Request :=
  mkRequest msg id "" "" "" None 0%float 0%float None.

(** The state after a successful start-up: [b] assigned and ["default"]
    bound to the browser's first page. *)
Definition sampleWorld : World :=
  Eval vm_compute in snd (startup (quietEngine None) initialWorld).

Definition clickAt (px py : float) : Request :=
  mkRequest "move_mouse" "default" "" "" "" None px py (Some true).

(** The text of the frame [{ "message": "get_html", "pageId": "default" }],
    and a decoder that accepts this frame and rejects any other text. *)
Definition quoted (s : string) : string :=
  String (Ascii.ascii_of_nat 34) (s ++ String (Ascii.ascii_of_nat 34) "").

Definition getHtmlFrame : string :=
  "{" ++ quoted "message" ++ ":" ++ quoted "get_html" ++ ","
      ++ quoted "pageId" ++ ":" ++ quoted "default" ++ "}".

Definition sampleParse (data : string) : option Request :=
  if String.eqb data getHtmlFrame
  then Some (request "get_html" "default")
  else None.

(** The synthetic tree [A(children=[B(children=[]), C(children=[D])])]. *)
Definition nodeD : AXNode := mkAXNode "D" None None.
Definition nodeC : AXNode := mkAXNode "C" None (Some [nodeD]).
Definition nodeB : AXNode := mkAXNode "B" None (Some []).
Definition nodeA : AXNode := mkAXNode "A" None (Some [nodeB; nodeC]).

(** ** Reading the effect of a dispatch *)

(** The world [w] after the engine calls [cs] have been made and nothing
    else has changed. *)
Definition logged (w : World) (cs : list EngineCall) : World :=
  mkWorld (openPages w) (b w) (calls w ++ cs)%list.

(** The page an engine call acts on, if it acts on one. *)
Definition targetPage (c : EngineCall) : option Page :=
  match c with
  | Launch _ _ | Pages _ | NewPage _ => None
  | Goto p _ | Content p | PageClick p _ | PageType p _ _ _
  | KeyboardType p _ | KeyboardPress p _ | MouseClick p _ _ | MouseMove p _ _
  | Screenshot p _ | Evaluate p | AccessibilitySnapshot p => Some p
  end.

(** The commands whose handlers have no [try]/[catch] around the engine
    call. *)
Definition uncaughtCommands : list string :=
  ["get_html"; "get_interactive_elements"; "observe"].

(** ** The in-page callback of [getInteractiveElements] *)

(** What the callback reads from, and writes to, a matched DOM element. *)
Record DomElement : Type :=
  mkDomElement {
    el_checkVisibility : bool;
    el_className : string;
    el_ariaLabel : option string;
    el_ariaDescription : option string;
    el_ariaRoleDescription : option string;
    el_href : option string;
    el_innerText : string;
    el_id : string;
    el_tagName : string;
    el_type : option string;
    el_value : option string;
    el_attributes : gmap string string
  }.

(** [ele.setAttribute(name, value)]. *)
Definition setAttribute (attr value : string) (ele : DomElement) : DomElement :=
  mkDomElement (el_checkVisibility ele) (el_className ele) (el_ariaLabel ele)
    (el_ariaDescription ele) (el_ariaRoleDescription ele) (el_href ele)
    (el_innerText ele) (el_id ele) (el_tagName ele) (el_type ele)
    (el_value ele) (<[attr := value]> (el_attributes ele)).

(** The object literal the callback returns for the element at [index];
    [index.toString()] is the decimal numeral. *)
Definition describeElement (index : nat) (ele : DomElement) : InteractiveElement :=
  mkInteractiveElement (el_checkVisibility ele) (el_className ele)
    (el_ariaLabel ele) (el_ariaDescription ele) (el_ariaRoleDescription ele)
    (el_href ele) (el_innerText ele) (el_id ele) (pretty index)
    (el_tagName ele) (el_type ele) (el_value ele).

(** The function passed to [page.evaluate], applied to the elements
    [querySelectorAll] matched, in document order: the items it returns and
    the elements as it leaves them. *)
Definition collectInteractive (matched : list DomElement)
  : list InteractiveElement * list DomElement :=
  (imap (fun index ele =>
           describeElement index (setAttribute "assign-id" (pretty index) ele))
        matched,
   imap (fun index ele => setAttribute "assign-id" (pretty index) ele) matched).

(** ** The revision that reads the page back after navigating *)

(** An earlier revision of the file: [navigate] returns the HTML of the
    page it went to, and the dispatcher knows six commands. *)
Module ReadBack.

Section Handlers.

Variable engine : Engine.

Definition navigate (m : Request) : M JsVal :=
  page <- readPage (pageId m) ;;
  try_catch
    (member page (fun p => call engine (Goto p (url m))) ;;;
     html <- member page (fun p => call engine (Content p)) ;;
     ret (JObj [("html", JStr html)]))
    (fun _ => ret (errorPayload "Error while navigating")).

Definition route (req : Request) : M JsVal :=
  if String.eqb (message req) "get_screenshot" then getScreenshot engine req
  else if String.eqb (message req) "create_page" then createPage engine req
  else if String.eqb (message req) "navigate" then navigate req
  else if String.eqb (message req) "get_html" then getHtml engine req
  else if String.eqb (message req) "click" then clickHandler engine req
  else if String.eqb (message req) "input_text" then inputText engine req
  else ret (errorPayload "No message found").

Definition messageSwitch (req : Request) : M JsVal :=
  page <- readPage (pageId req) ;;
  match page with
  | Undefined => ret (errorPayload "Page with requested pageId not found")
  | OwnPage _ | InheritedMember => route req
  end.

End Handlers.

End ReadBack.

(** ** More sample inputs *)

Definition typing (msg : string) (enterFlag : option bool) : Request :=
  mkRequest msg "default" "" "#q" "hello" enterFlag 0%float 0%float None.

Definition sampleElement (cls : string) : DomElement :=
  mkDomElement true cls None None None None "" "" "BUTTON" None None ∅.

(** The text of the frame [{ "message": msg, "pageId": id }], and a decoder
    that accepts the frames of the requests in [known] and rejects any other
    text. *)
Definition frameOf (msg id : string) : string :=
  "{" ++ quoted "message" ++ ":" ++ quoted msg ++ ","
      ++ quoted "pageId" ++ ":" ++ quoted id ++ "}".

Definition tableParse (known : list Request) (data : string) : option Request :=
  find (fun r => String.eqb data (frameOf (message r) (pageId r))) known.

(** An engine whose browser reports no page at all. *)
Definition pagelessEngine : Engine :=
  fun history c =>
    match c return Exn + ret_type c with
    | Pages _ => inr []
    | c' => quietEngine None history c'
    end.

(** * Properties *)

(** Unfolds the monadic plumbing of a handler down to the engine oracle. *)
Ltac unfold_handler :=
  unfold bind, try_catch, readPage, lookupPage, readBrowser, writePage, deref,
    member, call, ret, throw; cbn [fst snd].

(** ** Startup *)

(** The start-up closure assigns [b] and binds ["default"] to the first
    page the browser reports. *)
Lemma startup_seeds_default
    (engine : Engine) (br : Browser) (first : Page) (others : list Page) :
  engine [] (Launch "firefox" false) = inr br ->
  engine [Launch "firefox" false] (Pages br) = inr (first :: others) ->
  startup engine initialWorld
  = (inr tt,
     mkWorld (<["default" := first]> ∅) (Some br)
             [Launch "firefox" false; Pages br]).
Proof.
  intros Hlaunch Hpages. unfold startup, writeBrowser. unfold_handler.
  cbn [initialWorld calls openPages b]. rewrite Hlaunch.
  cbn [calls openPages b app]. now rewrite Hpages.
Qed.

Example sampleWorld_is_seeded :
  openPages sampleWorld = <["default" := PageHandle 0]> ∅
  /\ b sampleWorld = Some FirefoxBrowser.
Proof. split; reflexivity. Qed.

(** ** Flattening *)

Lemma fold_recurseChildren (cs : list AXNode) :
  Forall (fun c => forall items,
            recurseChildren c items
            = (items ++ List.filter hasChildrenField (preorder c))%list) cs ->
  forall acc,
    fold_left (fun acc child => recurseChildren child acc) cs acc
    = (acc ++ List.filter hasChildrenField (flat_map preorder cs))%list.
Proof.
  induction 1 as [|c cs Hc _ IH]; intros acc; simpl.
  - now rewrite app_nil_r.
  - rewrite List.filter_app, IH, Hc. now rewrite <- app_assoc.
Qed.

Lemma recurseChildren_filter_preorder (node : AXNode) :
  forall items,
    recurseChildren node items
    = (items ++ List.filter hasChildrenField (preorder node))%list.
Proof.
  induction node as [r n [cs|] IH] using AXNode_nested_ind; intros items.
  - cbn [recurseChildren preorder children].
    rewrite (fold_recurseChildren cs IH).
    cbn. now rewrite <- app_assoc.
  - cbn. now rewrite app_nil_r.
Qed.

(** On a snapshot without empty [children] arrays the two tests agree on
    every node of the tree. *)
Lemma filter_preorder_noEmptyChildren (node : AXNode) :
  noEmptyChildren node = true ->
  List.filter hasChildrenField (preorder node)
  = List.filter hasChild (preorder node).
Proof.
  induction node as [r n [cs|] IH] using AXNode_nested_ind; intros Hne.
  - destruct cs as [|c cs]; [discriminate Hne|].
    cbn [preorder children List.filter hasChildrenField hasChild].
    f_equal.
    cbn [noEmptyChildren children] in Hne.
    revert Hne IH. generalize (c :: cs). clear.
    induction l as [|d l IHl]; intros Hne IH; [reflexivity|].
    cbn in Hne. apply andb_prop in Hne as [Hd Hl].
    inversion IH as [|? ? Hd' Hl']; subst.
    cbn [flat_map]. rewrite !List.filter_app, (Hd' Hd), (IHl Hl Hl').
    reflexivity.
  - reflexivity.
Qed.

Section ObserveFacts.

Variable engine : Engine.

Lemma observe_bound (req : Request) (w : World) (p : Page) :
  openPages w !! pageId req = Some p ->
  observe engine req w
  = (match engine (calls w) (AccessibilitySnapshot p) with
     | inl e => inl e
     | inr None => inr (errorPayload "No snapshot available")
     | inr (Some root) =>
         inr (JObj [("snapshot",
                     JArr (map JNode
                             (List.filter hasChildrenField (preorder root))))])
     end,
     mkWorld (openPages w) (b w) (calls w ++ [AccessibilitySnapshot p])).
Proof.
  intros Hp. unfold observe. unfold_handler. rewrite Hp.
  destruct (engine (calls w) (AccessibilitySnapshot p)) as [e|[root|]];
    try reflexivity.
  now rewrite recurseChildren_filter_preorder.
Qed.

End ObserveFacts.

(** C3 (as amended): on a bound page whose snapshot is [root], [observe]
    returns [{snapshot: items}] where [items] are exactly the nodes of [root]
    that carry a [children] property, an empty array included, in pre-order
    (parent before children, children left to right).  When no node of the
    snapshot carries an empty [children] array, these are exactly the nodes
    with at least one child. *)
Theorem observe_flattening
    (engine : Engine) (req : Request) (w : World) (p : Page) (root : AXNode) :
  openPages w !! pageId req = Some p ->
  engine (calls w) (AccessibilitySnapshot p) = inr (Some root) ->
  observe engine req w
  = (inr (JObj [("snapshot",
                 JArr (map JNode
                         (List.filter hasChildrenField (preorder root))))]),
     mkWorld (openPages w) (b w) (calls w ++ [AccessibilitySnapshot p]))
  /\ (noEmptyChildren root = true ->
      observe engine req w
      = (inr (JObj [("snapshot",
                     JArr (map JNode
                             (List.filter hasChild (preorder root))))]),
         mkWorld (openPages w) (b w) (calls w ++ [AccessibilitySnapshot p]))).
Proof.
  intros Hp Hsnap.
  assert (Hobs := observe_bound engine req w p Hp).
  rewrite Hsnap in Hobs. split; [exact Hobs|].
  intros Hne. now rewrite <- filter_preorder_noEmptyChildren.
Qed.

(** The synthetic tree flattens to [A, B, C]: [B] is kept although it has
    no child. *)
Lemma observe_flattening_witness :
  observe (quietEngine (Some nodeA)) (request "observe" "default") sampleWorld
  = (inr (JObj [("snapshot", JArr [JNode nodeA; JNode nodeB; JNode nodeC])]),
     mkWorld (openPages sampleWorld) (b sampleWorld)
             (calls sampleWorld ++ [AccessibilitySnapshot (PageHandle 0)])).
Proof.
  exact (proj1 (observe_flattening (quietEngine (Some nodeA))
                  (request "observe" "default") sampleWorld (PageHandle 0)
                  nodeA eq_refl eq_refl)).
Defined.

(** C3 (as stated) fails on the synthetic tree of the claim: the flattened
    output is [A, B, C], not [A, C], and [B], which has no child, is in it. *)
Lemma observe_flattening_counterexample :
  recurseChildren nodeA [] = [nodeA; nodeB; nodeC]
  /\ recurseChildren nodeA [] <> [nodeA; nodeC]
  /\ hasChild nodeB = false
  /\ In nodeB (recurseChildren nodeA []).
Proof.
  repeat split.
  - discriminate.
  - right. left. reflexivity.
Qed.

(** ** The dispatcher *)

Section DispatcherFacts.

Variable engine : Engine.

(** The guard at the head of [messageSwitch] applies to every request,
    whatever its discriminant. *)
Lemma messageSwitch_unbound (req : Request) (w : World) :
  openPages w !! pageId req = None ->
  inheritedName (pageId req) = false ->
  messageSwitch engine req w
  = (inr (errorPayload "Page with requested pageId not found"), w).
Proof.
  intros Hp Hown. unfold messageSwitch. unfold_handler. now rewrite Hp, Hown.
Qed.

(** An identifier that names an inherited member passes the guard although
    no page is bound to it. *)
Lemma messageSwitch_inherited (req : Request) (w : World) :
  openPages w !! pageId req = None ->
  inheritedName (pageId req) = true ->
  messageSwitch engine req w = route engine req w.
Proof.
  intros Hp Hinh. unfold messageSwitch. unfold_handler. now rewrite Hp, Hinh.
Qed.

Lemma messageSwitch_bound (req : Request) (w : World) (p : Page) :
  openPages w !! pageId req = Some p ->
  messageSwitch engine req w = route engine req w.
Proof.
  intros Hp. unfold messageSwitch. unfold_handler. now rewrite Hp.
Qed.

Lemma route_unknown (req : Request) :
  ~ In (message req) knownCommands ->
  route engine req = ret (errorPayload "No message found").
Proof.
  intros Hnot. unfold route.
  repeat match goal with
         | |- context [String.eqb ?a ?c] =>
             destruct (String.eqb_spec a c) as [E|_];
             [exfalso; apply Hnot; rewrite E; simpl; tauto|]
         end.
  reflexivity.
Qed.

Lemma createPage_bound (req : Request) (w : World) (p : Page) :
  openPages w !! pageId req = Some p ->
  createPage engine req w = (inr (errorPayload "Page already exists"), w).
Proof.
  intros Hp. unfold createPage. unfold_handler. now rewrite Hp.
Qed.

(** What [createPage] does when called on an identifier that is not bound:
    it asks the browser for a page and binds it. *)
Lemma createPage_fresh (req : Request) (w : World) (br : Browser) :
  openPages w !! pageId req = None ->
  inheritedName (pageId req) = false ->
  b w = Some br ->
  createPage engine req w
  = match engine (calls w) (NewPage br) with
    | inl e => (inl e, mkWorld (openPages w) (b w) (calls w ++ [NewPage br]))
    | inr page =>
        (inr JUndefined,
         mkWorld (<[pageId req := page]> (openPages w)) (b w)
                 (calls w ++ [NewPage br]))
    end.
Proof.
  destruct w as [pages bw log]; cbn [openPages b calls].
  intros Hp Hown ->. unfold createPage. unfold_handler.
  cbn [openPages b calls]. rewrite Hp, Hown. cbn [openPages b calls].
  destruct (engine log (NewPage br)); reflexivity.
Qed.

Lemma moveMouse_bound (req : Request) (w : World) (p : Page) :
  openPages w !! pageId req = Some p ->
  moveMouse engine req w
  = if truthy (click req)
    then (match engine (calls w) (MouseClick p (x req) (y req)) with
          | inl _ => inr (errorPayload "Could not move mouse")
          | inr _ => inr JUndefined
          end,
          mkWorld (openPages w) (b w)
                  (calls w ++ [MouseClick p (x req) (y req)]))
    else (match engine (calls w) (MouseMove p (x req) (y req)) with
          | inl _ => inr (errorPayload "Could not move mouse")
          | inr _ => inr JUndefined
          end,
          mkWorld (openPages w) (b w)
                  (calls w ++ [MouseMove p (x req) (y req)])).
Proof.
  intros Hp. unfold moveMouse. unfold_handler. rewrite Hp.
  destruct (truthy (click req)).
  - now destruct (engine (calls w) (MouseClick p (x req) (y req))).
  - now destruct (engine (calls w) (MouseMove p (x req) (y req))).
Qed.

Lemma getHtml_bound (req : Request) (w : World) (p : Page) :
  openPages w !! pageId req = Some p ->
  getHtml engine req w
  = (match engine (calls w) (Content p) with
     | inl e => inl e
     | inr html => inr (JStr html)
     end,
     mkWorld (openPages w) (b w) (calls w ++ [Content p])).
Proof.
  intros Hp. unfold getHtml. unfold_handler. rewrite Hp.
  now destruct (engine (calls w) (Content p)).
Qed.

(** On an identifier with no page bound to it a dispatch changes nothing
    and calls nothing, whether the guard stops it or an inherited member
    lets it through. *)
Lemma messageSwitch_unbound_idle (req : Request) (w : World) :
  openPages w !! pageId req = None ->
  snd (messageSwitch engine req w) = w.
Proof.
  intros Hp. destruct (inheritedName (pageId req)) eqn:Hinh;
    [|now rewrite (messageSwitch_unbound req w Hp Hinh)].
  rewrite (messageSwitch_inherited req w Hp Hinh).
  unfold route, observe, getInteractiveElements, typeText, getScreenshot,
    createPage, navigate, getHtml, clickHandler, inputText, moveMouse.
  unfold_handler.
  repeat match goal with
         | |- context [String.eqb (message req) ?c] =>
             destruct (String.eqb (message req) c)
         end.
  all: try destruct (truthy (click req)).
  all: repeat (progress (cbn [fst snd openPages b calls]; rewrite ?Hp, ?Hinh)).
  all: reflexivity.
Qed.

End DispatcherFacts.

(** C1 (the code departs from the claim): [create_page] is not exempt from
    the page-resolution guard of [messageSwitch].  Dispatched for the fresh
    identifier ["tab1"] it answers with the missing-page error, makes no
    engine call and binds nothing, and so does a second dispatch; the handler
    [createPage] itself, were it reached, would create and bind the page. *)
Theorem create_page_fresh_hits_guard (engine : Engine) :
  openPages sampleWorld !! "tab1" = None
  /\ messageSwitch engine (request "create_page" "tab1") sampleWorld
     = (inr (errorPayload "Page with requested pageId not found"), sampleWorld)
  /\ run engine [request "create_page" "tab1"; request "create_page" "tab1"]
         sampleWorld
     = sampleWorld
  /\ createPage (quietEngine None) (request "create_page" "tab1") sampleWorld
     = (inr JUndefined,
        mkWorld (<["tab1" := PageHandle 2]> (openPages sampleWorld))
                (Some FirefoxBrowser)
                (calls sampleWorld ++ [NewPage FirefoxBrowser])).
Proof.
  assert (Hfresh : openPages sampleWorld !! "tab1" = None) by reflexivity.
  assert (Hguard := messageSwitch_unbound engine
                      (request "create_page" "tab1") sampleWorld Hfresh
                      eq_refl).
  split; [exact Hfresh|]. split; [exact Hguard|]. split.
  - unfold run. cbn [fold_left]. rewrite Hguard. cbn [snd].
    now rewrite Hguard.
  - now rewrite (createPage_fresh (quietEngine None)
                   (request "create_page" "tab1") sampleWorld FirefoxBrowser
                   Hfresh eq_refl eq_refl).
Qed.




(** C4: dispatching [create_page] for an identifier that is already bound
    answers exactly [{error: "Page already exists"}]; no engine call is made
    and the registry keeps the handle it had. *)
Theorem create_page_duplicate_rejected
    (engine : Engine) (req : Request) (w : World) (p : Page) :
  message req = "create_page" ->
  openPages w !! pageId req = Some p ->
  messageSwitch engine req w = (inr (errorPayload "Page already exists"), w)
  /\ calls (snd (messageSwitch engine req w)) = calls w
  /\ openPages (snd (messageSwitch engine req w)) !! pageId req = Some p.
Proof.
  intros Hmsg Hp.
  assert (Hsw : messageSwitch engine req w
                = (inr (errorPayload "Page already exists"), w)).
  { rewrite (messageSwitch_bound engine req w p Hp). unfold route.
    rewrite Hmsg. cbn [String.eqb Ascii.eqb Bool.eqb].
    now apply createPage_bound with p. }
  rewrite Hsw. now repeat split.
Qed.

Lemma create_page_duplicate_rejected_witness :
  messageSwitch (quietEngine None) (request "create_page" "default") sampleWorld
  = (inr (errorPayload "Page already exists"), sampleWorld)
  /\ calls (snd (messageSwitch (quietEngine None)
                   (request "create_page" "default") sampleWorld))
     = calls sampleWorld
  /\ openPages (snd (messageSwitch (quietEngine None)
                       (request "create_page" "default") sampleWorld))
       !! "default"
     = Some (PageHandle 0).
Proof.
  apply (create_page_duplicate_rejected (quietEngine None)
           (request "create_page" "default") sampleWorld (PageHandle 0));
    reflexivity.
Defined.

(** C6 (as amended): for a request whose page identifier is bound and whose
    discriminant is none of the ten commands, the dispatcher answers exactly
    [{error: "No message found"}], and the state is unchanged. *)
Theorem unknown_discriminant_on_bound_page
    (engine : Engine) (req : Request) (w : World) (p : Page) :
  openPages w !! pageId req = Some p ->
  ~ In (message req) knownCommands ->
  messageSwitch engine req w = (inr (errorPayload "No message found"), w).
Proof.
  intros Hp Hnot.
  rewrite (messageSwitch_bound engine req w p Hp).
  now rewrite (route_unknown engine req Hnot).
Qed.

Lemma unknown_discriminant_on_bound_page_witness :
  messageSwitch (quietEngine None) (request "close_page" "default") sampleWorld
  = (inr (errorPayload "No message found"), sampleWorld).
Proof.
  apply (unknown_discriminant_on_bound_page (quietEngine None)
           (request "close_page" "default") sampleWorld (PageHandle 0)).
  - reflexivity.
  - simpl. intuition discriminate.
Defined.

(** C6 (as stated) fails when the page identifier is not bound: the guard
    answers first, with the missing-page error. *)
Lemma unknown_discriminant_counterexample :
  ~ In (message (request "close_page" "tab1")) knownCommands
  /\ messageSwitch (quietEngine None) (request "close_page" "tab1") sampleWorld
     = (inr (errorPayload "Page with requested pageId not found"), sampleWorld)
  /\ fst (messageSwitch (quietEngine None) (request "close_page" "tab1")
            sampleWorld)
     <> inr (errorPayload "No message found").
Proof.
  split; [simpl; intuition discriminate|].
  rewrite (messageSwitch_unbound (quietEngine None)
             (request "close_page" "tab1") sampleWorld eq_refl eq_refl).
  split; [reflexivity|discriminate].
Qed.

(** C7: on a bound page, [move_mouse] with [click: true] makes exactly one
    engine call, a click at [(x, y)]; with [click] omitted or [false] it makes
    exactly one call, a pointer move to [(x, y)]; in both cases the answer is
    [{error: "Could not move mouse"}] when that call throws and [undefined]
    otherwise. *)
Theorem move_mouse_click_or_move
    (engine : Engine) (req : Request) (w : World) (p : Page) :
  message req = "move_mouse" ->
  openPages w !! pageId req = Some p ->
  (click req = Some true ->
   messageSwitch engine req w
   = (match engine (calls w) (MouseClick p (x req) (y req)) with
      | inl _ => inr (errorPayload "Could not move mouse")
      | inr _ => inr JUndefined
      end,
      mkWorld (openPages w) (b w)
              (calls w ++ [MouseClick p (x req) (y req)])))
  /\ (click req = None \/ click req = Some false ->
      messageSwitch engine req w
      = (match engine (calls w) (MouseMove p (x req) (y req)) with
         | inl _ => inr (errorPayload "Could not move mouse")
         | inr _ => inr JUndefined
         end,
         mkWorld (openPages w) (b w)
                 (calls w ++ [MouseMove p (x req) (y req)]))).
Proof.
  intros Hmsg Hp.
  assert (Hsw : messageSwitch engine req w = moveMouse engine req w).
  { rewrite (messageSwitch_bound engine req w p Hp). unfold route.
    now rewrite Hmsg. }
  rewrite Hsw, (moveMouse_bound engine req w p Hp).
  split.
  - now intros ->.
  - now intros [-> | ->].
Qed.

Lemma move_mouse_click_or_move_witness :
  messageSwitch brokenEngine (clickAt 10 20.5) sampleWorld
  = (inr (errorPayload "Could not move mouse"),
     mkWorld (openPages sampleWorld) (b sampleWorld)
             (calls sampleWorld ++ [MouseClick (PageHandle 0) 10 20.5])).
Proof.
  exact (proj1 (move_mouse_click_or_move brokenEngine (clickAt 10 20.5)
                  sampleWorld (PageHandle 0) eq_refl eq_refl) eq_refl).
Defined.

(** C8: on a bound page, [get_html] makes the engine's [content] call and
    answers with the returned HTML as a bare string; when the call throws,
    the exception is the outcome of the dispatch, not an error payload. *)
Theorem get_html_raw_and_uncaught
    (engine : Engine) (req : Request) (w : World) (p : Page) :
  message req = "get_html" ->
  openPages w !! pageId req = Some p ->
  messageSwitch engine req w
  = (match engine (calls w) (Content p) with
     | inl e => inl e
     | inr html => inr (JStr html)
     end,
     mkWorld (openPages w) (b w) (calls w ++ [Content p])).
Proof.
  intros Hmsg Hp.
  rewrite (messageSwitch_bound engine req w p Hp). unfold route.
  rewrite Hmsg. cbn [String.eqb Ascii.eqb Bool.eqb].
  now apply getHtml_bound.
Qed.

Lemma get_html_raw_and_uncaught_witness :
  messageSwitch (quietEngine None) (request "get_html" "default") sampleWorld
  = (inr (JStr "<html></html>"),
     mkWorld (openPages sampleWorld) (b sampleWorld)
             (calls sampleWorld ++ [Content (PageHandle 0)]))
  /\ messageSwitch brokenEngine (request "get_html" "default") sampleWorld
     = (inl (EngineError "Protocol error"),
        mkWorld (openPages sampleWorld) (b sampleWorld)
                (calls sampleWorld ++ [Content (PageHandle 0)])).
Proof.
  split.
  - exact (get_html_raw_and_uncaught (quietEngine None)
             (request "get_html" "default") sampleWorld (PageHandle 0)
             eq_refl eq_refl).
  - exact (get_html_raw_and_uncaught brokenEngine
             (request "get_html" "default") sampleWorld (PageHandle 0)
             eq_refl eq_refl).
Defined.

(** ** The registry under dispatch *)

Section RegistryFacts.

Variable engine : Engine.

(** Case analysis on everything a handler branches on. *)
Ltac handler_cases :=
  repeat (cbn [fst snd openPages b calls];
          match goal with
          | |- context [engine ?h ?c] => destruct (engine h c)
          | |- context [truthy ?f] => destruct (truthy f)
          | |- context [match ?o with Some _ => _ | None => _ end] =>
              is_var o; destruct o
          end);
  cbn [fst snd openPages b calls]; reflexivity.

(** Every handler other than [createPage] only reads the registry. *)
Lemma route_keeps_registry (req : Request) (w : World) :
  message req <> "create_page" ->
  openPages (snd (route engine req w)) = openPages w.
Proof.
  intros Hmsg. unfold route.
  repeat match goal with
         | |- context [String.eqb (message req) ?c] =>
             destruct (String.eqb_spec (message req) c) as [E|_];
             [try (exfalso; exact (Hmsg E)); clear E|]
         end.
  all: unfold observe, getInteractiveElements, typeText, getScreenshot,
         navigate, getHtml, clickHandler, inputText, moveMouse.
  all: unfold_handler.
  all: destruct (openPages w !! pageId req);
    [|destruct (inheritedName (pageId req))]; cbn [openPages b calls].
  all: handler_cases.
Qed.

(** [createPage] writes the registry only at an identifier that reads as
    [undefined], so no binding is lost or replaced. *)
Lemma createPage_keeps_bindings (req : Request) (w : World) (id : string) (p : Page) :
  openPages w !! id = Some p ->
  openPages (snd (createPage engine req w)) !! id = Some p.
Proof.
  intros Hid.
  destruct (openPages w !! pageId req) as [q|] eqn:Hp.
  - now rewrite (createPage_bound engine req w q Hp).
  - destruct (inheritedName (pageId req)) eqn:Hinh;
      [unfold createPage; unfold_handler; now rewrite Hp, Hinh|].
    destruct (b w) as [br|] eqn:Hb.
    + rewrite (createPage_fresh engine req w br Hp Hinh Hb).
      destruct (engine (calls w) (NewPage br)); cbn [snd openPages];
        [exact Hid|].
      rewrite lookup_insert_ne; [exact Hid|].
      intros E. rewrite E in Hp. congruence.
    + unfold createPage. unfold_handler. now rewrite Hp, Hinh, Hb.
Qed.

Lemma messageSwitch_keeps_registry (req : Request) (w : World) :
  openPages (snd (messageSwitch engine req w)) = openPages w.
Proof.
  destruct (openPages w !! pageId req) as [p|] eqn:Hp.
  - rewrite (messageSwitch_bound engine req w p Hp).
    destruct (String.eqb_spec (message req) "create_page") as [E|E].
    + unfold route. rewrite E. cbn [String.eqb Ascii.eqb Bool.eqb].
      now rewrite (createPage_bound engine req w p Hp).
    + now apply route_keeps_registry.
  - now rewrite (messageSwitch_unbound_idle engine req w Hp).
Qed.

Lemma run_keeps_registry (reqs : list Request) :
  forall w, openPages (run engine reqs w) = openPages w.
Proof.
  induction reqs as [|req reqs IH]; intros w; [reflexivity|].
  unfold run in *. cbn [fold_left].
  now rewrite IH, messageSwitch_keeps_registry.
Qed.

End RegistryFacts.

(** C9: across any sequence of dispatched commands a bound identifier stays
    bound to the same handle; a command other than [create_page] leaves the
    registry as it was, dispatched or run as a bare handler; and the one
    write there is, in [createPage], keeps every existing binding. *)
Theorem registry_monotone
    (engine : Engine) (reqs : list Request) (w : World) (id : string) (p : Page) :
  openPages w !! id = Some p ->
  openPages (run engine reqs w) !! id = Some p
  /\ (forall req w', message req <> "create_page" ->
        openPages (snd (messageSwitch engine req w')) = openPages w'
        /\ openPages (snd (route engine req w')) = openPages w')
  /\ (forall req, openPages (snd (createPage engine req w)) !! id = Some p).
Proof.
  intros Hid. split; [|split].
  - now rewrite run_keeps_registry.
  - intros req w' Hmsg. split.
    + apply messageSwitch_keeps_registry.
    + now apply route_keeps_registry.
  - intros req. now apply createPage_keeps_bindings.
Qed.

Lemma registry_monotone_witness :
  openPages (run (quietEngine None)
               [request "navigate" "default"; request "create_page" "tab1";
                request "create_page" "default"; request "get_html" "default"]
               sampleWorld) !! "default"
  = Some (PageHandle 0).
Proof.
  exact (proj1 (registry_monotone (quietEngine None)
                  [request "navigate" "default"; request "create_page" "tab1";
                   request "create_page" "default"; request "get_html" "default"]
                  sampleWorld "default" (PageHandle 0) eq_refl)).
Defined.

(** ** The connection *)

Section TransportFacts.

Variable engine : Engine.
Variable JSON_parse : string -> option Request.

Lemma onMessage_malformed (data : string) (w : World) (s : Socket) :
  JSON_parse data = None ->
  onMessage engine JSON_parse data (w, s)
  = (w, mkSocket (isOpen s)
                 (outbox s ++ [errorPayload "Error while parsing JSON"])).
Proof.
  intros Hparse. unfold onMessage. now rewrite Hparse.
Qed.

Lemma onMessage_decoded (data : string) (req : Request) (w : World) (s : Socket) :
  JSON_parse data = Some req ->
  onMessage engine JSON_parse data (w, s)
  = (snd (messageSwitch engine req w),
     mkSocket (isOpen s)
              (outbox s ++ replies (fst (messageSwitch engine req w)))).
Proof.
  intros Hparse. unfold onMessage. rewrite Hparse.
  destruct (messageSwitch engine req w) as [[e|res] w']; cbn [fst snd replies].
  - rewrite app_nil_r. now destruct s.
  - reflexivity.
Qed.

(** Handling a frame only appends to what was sent, and never closes the
    socket. *)
Lemma onMessage_appends (data : string) (st : World * Socket) :
  isOpen (snd (onMessage engine JSON_parse data st)) = isOpen (snd st)
  /\ exists more,
      outbox (snd (onMessage engine JSON_parse data st))
      = (outbox (snd st) ++ more)%list.
Proof.
  destruct st as [w s].
  destruct (JSON_parse data) as [req|] eqn:Hparse.
  - rewrite (onMessage_decoded data req w s Hparse). cbn [snd isOpen outbox].
    eauto.
  - rewrite (onMessage_malformed data w s Hparse). cbn [snd isOpen outbox].
    eauto.
Qed.

Lemma serve_outbox (w : World) (frames : list string) :
  isOpen (snd (serve engine JSON_parse w frames)) = true
  /\ exists more,
      outbox (snd (serve engine JSON_parse w frames)) = statusFrame w :: more.
Proof.
  unfold serve.
  assert (Hstart : isOpen (snd (w, onConnection w)) = true
                   /\ exists more,
                       outbox (snd (w, onConnection w)) = statusFrame w :: more)
    by (split; [reflexivity|now exists []]).
  revert Hstart. generalize (w, onConnection w).
  induction frames as [|data frames IH]; intros st Hst; [exact Hst|].
  cbn [fold_left]. apply IH.
  destruct Hst as [Hopen [more Hout]].
  destruct (onMessage_appends data st) as [Hopen' [more' Hout']].
  split; [congruence|].
  exists (more ++ more')%list. now rewrite Hout', Hout.
Qed.

End TransportFacts.

(** C5: a frame on which [JSON.parse] throws is answered with exactly
    [{error: "Error while parsing JSON"}]; the socket stays as open as it was
    and the process state is untouched, so that the next frame, when it
    decodes, is dispatched on the same state and its answer (if the dispatch
    resolves) is sent right after the error. *)
Theorem malformed_frame_reported
    (engine : Engine) (JSON_parse : string -> option Request)
    (data : string) (w : World) (s : Socket) :
  JSON_parse data = None ->
  onMessage engine JSON_parse data (w, s)
  = (w, mkSocket (isOpen s)
                 (outbox s ++ [errorPayload "Error while parsing JSON"]))
  /\ forall data' req,
      JSON_parse data' = Some req ->
      onMessage engine JSON_parse data'
        (onMessage engine JSON_parse data (w, s))
      = (snd (messageSwitch engine req w),
         mkSocket (isOpen s)
                  (outbox s ++ [errorPayload "Error while parsing JSON"]
                            ++ replies (fst (messageSwitch engine req w)))).
Proof.
  intros Hbad.
  rewrite (onMessage_malformed engine JSON_parse data w s Hbad).
  split; [reflexivity|].
  intros data' req Hgood.
  rewrite (onMessage_decoded engine JSON_parse data' req w _ Hgood).
  cbn [isOpen outbox]. now rewrite <- app_assoc.
Qed.

Lemma malformed_frame_reported_witness :
  serve (quietEngine None) sampleParse sampleWorld ["not json"; getHtmlFrame]
  = (mkWorld (openPages sampleWorld) (b sampleWorld)
             (calls sampleWorld ++ [Content (PageHandle 0)]),
     mkSocket true
       [statusFrame sampleWorld;
        errorPayload "Error while parsing JSON";
        JStr "<html></html>"]).
Proof.
  unfold serve. cbn [fold_left].
  rewrite (proj2 (malformed_frame_reported (quietEngine None) sampleParse
                    "not json" sampleWorld (onConnection sampleWorld) eq_refl)
             getHtmlFrame (request "get_html" "default") eq_refl).
  reflexivity.
Defined.

(** C10: the first value sent on a connection, whatever frames follow, is
    the status object: its discriminant key is spelled ["messge"] and holds
    ["browser_status"], its ["status"] is ["up"] when [b] is assigned and
    ["down"] otherwise, and it has no ["message"] property. *)
Theorem status_frame_first
    (engine : Engine) (JSON_parse : string -> option Request)
    (w : World) (frames : list string) :
  (exists more,
     outbox (snd (serve engine JSON_parse w frames)) = statusFrame w :: more)
  /\ statusFrame w
     = JObj [("messge", JStr "browser_status");
             ("status", JStr (match b w with Some _ => "up" | None => "down" end))]
  /\ prop "messge" (statusFrame w) = Some (JStr "browser_status")
  /\ prop "message" (statusFrame w) = None.
Proof.
  split; [exact (proj2 (serve_outbox engine JSON_parse w frames))|].
  unfold statusFrame. now destruct (b w).
Qed.

(** ** The handlers that catch engine failures *)

Section CatchingHandlers.

Variable engine : Engine.

Lemma typeText_bound (req : Request) (w : World) (p : Page) :
  openPages w !! pageId req = Some p ->
  typeText engine req w
  = match engine (calls w) (KeyboardType p (text req)) with
    | inl _ =>
        (inr (errorPayload "Could not type"),
         logged w [KeyboardType p (text req)])
    | inr _ =>
        if truthy (enter req)
        then (match engine (calls w ++ [KeyboardType p (text req)])%list
                           (KeyboardPress p "Enter") with
              | inl _ => inr (errorPayload "Could not type")
              | inr _ => inr JUndefined
              end,
              logged w [KeyboardType p (text req); KeyboardPress p "Enter"])
        else (inr JUndefined, logged w [KeyboardType p (text req)])
    end.
Proof.
  intros Hp. unfold typeText, logged. unfold_handler. rewrite Hp.
  destruct (engine (calls w) (KeyboardType p (text req))); [reflexivity|].
  destruct (truthy (enter req)); [|reflexivity].
  cbn [calls openPages b]. rewrite <- app_assoc.
  now destruct (engine _ (KeyboardPress p "Enter")).
Qed.

Lemma inputText_bound (req : Request) (w : World) (p : Page) :
  openPages w !! pageId req = Some p ->
  inputText engine req w
  = match engine (calls w) (PageType p (selector req) (text req) 100) with
    | inl _ =>
        (inr (errorPayload "Error while typing"),
         logged w [PageType p (selector req) (text req) 100])
    | inr _ =>
        if truthy (enter req)
        then (match engine
                      (calls w ++ [PageType p (selector req) (text req) 100])%list
                      (KeyboardPress p "Enter") with
              | inl _ => inr (errorPayload "Error while typing")
              | inr _ => inr JUndefined
              end,
              logged w [PageType p (selector req) (text req) 100;
                        KeyboardPress p "Enter"])
        else (inr JUndefined,
              logged w [PageType p (selector req) (text req) 100])
    end.
Proof.
  intros Hp. unfold inputText, logged. unfold_handler. rewrite Hp.
  destruct (engine (calls w) (PageType p (selector req) (text req) 100));
    [reflexivity|].
  destruct (truthy (enter req)); [|reflexivity].
  cbn [calls openPages b]. rewrite <- app_assoc.
  now destruct (engine _ (KeyboardPress p "Enter")).
Qed.

Lemma clickHandler_bound (req : Request) (w : World) (p : Page) :
  openPages w !! pageId req = Some p ->
  clickHandler engine req w
  = (match engine (calls w) (PageClick p (selector req)) with
     | inl _ => inr (errorPayload "Error while executing click")
     | inr _ => inr (JObj [("success", JBool true)])
     end,
     logged w [PageClick p (selector req)]).
Proof.
  intros Hp. unfold clickHandler, logged. unfold_handler. rewrite Hp.
  now destruct (engine (calls w) (PageClick p (selector req))).
Qed.

Lemma navigate_bound (req : Request) (w : World) (p : Page) :
  openPages w !! pageId req = Some p ->
  navigate engine req w
  = (match engine (calls w) (Goto p (url req)) with
     | inl _ => inr (errorPayload "Error while navigating")
     | inr _ => inr JUndefined
     end,
     logged w [Goto p (url req)]).
Proof.
  intros Hp. unfold navigate, logged. unfold_handler. rewrite Hp.
  now destruct (engine (calls w) (Goto p (url req))).
Qed.

Lemma getScreenshot_bound (req : Request) (w : World) (p : Page) :
  openPages w !! pageId req = Some p ->
  getScreenshot engine req w
  = (match engine (calls w) (Screenshot p "base64") with
     | inl _ => inr (errorPayload "Error while taking screenshot")
     | inr data => inr (JObj [("screenshot", JStr data)])
     end,
     logged w [Screenshot p "base64"]).
Proof.
  intros Hp. unfold getScreenshot, logged. unfold_handler. rewrite Hp.
  now destruct (engine (calls w) (Screenshot p "base64")).
Qed.

Lemma getInteractiveElements_bound (req : Request) (w : World) (p : Page) :
  openPages w !! pageId req = Some p ->
  getInteractiveElements engine req w
  = (match engine (calls w) (Evaluate p) with
     | inl e => inl e
     | inr items => inr (JObj [("items", JArr (map JElem items))])
     end,
     logged w [Evaluate p]).
Proof.
  intros Hp. unfold getInteractiveElements, logged. unfold_handler. rewrite Hp.
  now destruct (engine (calls w) (Evaluate p)).
Qed.

Lemma readBack_navigate_bound (req : Request) (w : World) (p : Page) :
  openPages w !! pageId req = Some p ->
  ReadBack.navigate engine req w
  = match engine (calls w) (Goto p (url req)) with
    | inl _ =>
        (inr (errorPayload "Error while navigating"),
         logged w [Goto p (url req)])
    | inr _ =>
        (match engine (calls w ++ [Goto p (url req)])%list (Content p) with
         | inl _ => inr (errorPayload "Error while navigating")
         | inr html => inr (JObj [("html", JStr html)])
         end,
         logged w [Goto p (url req); Content p])
    end.
Proof.
  intros Hp. unfold ReadBack.navigate, logged. unfold_handler. rewrite Hp.
  destruct (engine (calls w) (Goto p (url req))); [reflexivity|].
  cbn [calls openPages b]. rewrite <- app_assoc.
  now destruct (engine _ (Content p)).
Qed.

End CatchingHandlers.

(** Passes the guard of [messageSwitch] on a bound page and selects the
    [case] of the discriminant. *)
Ltac enter_handler Hmsg Hp :=
  match type of Hp with
  | openPages ?w !! pageId ?req = Some ?p =>
      match goal with
      | |- context [messageSwitch ?engine req w] =>
          rewrite (messageSwitch_bound engine req w p Hp)
      end
  end;
  unfold route; rewrite Hmsg; cbn [String.eqb Ascii.eqb Bool.eqb].

(** X1: [type_text] on a bound page types the text on the keyboard and then,
    only if [enter] is true, presses Enter.  A failure of either call is
    answered with [{error: "Could not type"}], and when typing fails Enter is
    not pressed. *)
Theorem type_text_then_enter
    (engine : Engine) (req : Request) (w : World) (p : Page) :
  message req = "type_text" ->
  openPages w !! pageId req = Some p ->
  messageSwitch engine req w
  = match engine (calls w) (KeyboardType p (text req)) with
    | inl _ =>
        (inr (errorPayload "Could not type"),
         logged w [KeyboardType p (text req)])
    | inr _ =>
        if truthy (enter req)
        then (match engine (calls w ++ [KeyboardType p (text req)])%list
                           (KeyboardPress p "Enter") with
              | inl _ => inr (errorPayload "Could not type")
              | inr _ => inr JUndefined
              end,
              logged w [KeyboardType p (text req); KeyboardPress p "Enter"])
        else (inr JUndefined, logged w [KeyboardType p (text req)])
    end.
Proof.
  intros Hmsg Hp. enter_handler Hmsg Hp. now apply typeText_bound.
Qed.

Lemma type_text_then_enter_witness :
  messageSwitch (quietEngine None) (typing "type_text" (Some true)) sampleWorld
  = (inr JUndefined,
     logged sampleWorld [KeyboardType (PageHandle 0) "hello";
                         KeyboardPress (PageHandle 0) "Enter"])
  /\ messageSwitch brokenEngine (typing "type_text" (Some true)) sampleWorld
     = (inr (errorPayload "Could not type"),
        logged sampleWorld [KeyboardType (PageHandle 0) "hello"]).
Proof.
  split.
  - exact (type_text_then_enter (quietEngine None)
             (typing "type_text" (Some true)) sampleWorld (PageHandle 0)
             eq_refl eq_refl).
  - exact (type_text_then_enter brokenEngine
             (typing "type_text" (Some true)) sampleWorld (PageHandle 0)
             eq_refl eq_refl).
Defined.

(** X2: [input_text] on a bound page types the text into the element the
    selector matches, with a delay of 100 between keystrokes, and then, only
    if [enter] is true, presses Enter.  A failure of either call is answered
    with [{error: "Error while typing"}], and when typing fails Enter is not
    pressed. *)
Theorem input_text_then_enter
    (engine : Engine) (req : Request) (w : World) (p : Page) :
  message req = "input_text" ->
  openPages w !! pageId req = Some p ->
  messageSwitch engine req w
  = match engine (calls w) (PageType p (selector req) (text req) 100) with
    | inl _ =>
        (inr (errorPayload "Error while typing"),
         logged w [PageType p (selector req) (text req) 100])
    | inr _ =>
        if truthy (enter req)
        then (match engine
                      (calls w ++ [PageType p (selector req) (text req) 100])%list
                      (KeyboardPress p "Enter") with
              | inl _ => inr (errorPayload "Error while typing")
              | inr _ => inr JUndefined
              end,
              logged w [PageType p (selector req) (text req) 100;
                        KeyboardPress p "Enter"])
        else (inr JUndefined,
              logged w [PageType p (selector req) (text req) 100])
    end.
Proof.
  intros Hmsg Hp. enter_handler Hmsg Hp. now apply inputText_bound.
Qed.

Lemma input_text_then_enter_witness :
  messageSwitch (quietEngine None) (typing "input_text" None) sampleWorld
  = (inr JUndefined,
     logged sampleWorld [PageType (PageHandle 0) "#q" "hello" 100]).
Proof.
  exact (input_text_then_enter (quietEngine None) (typing "input_text" None)
           sampleWorld (PageHandle 0) eq_refl eq_refl).
Defined.

(** X3: [click] on a bound page makes exactly one engine call, a click on
    the selector, and answers [{success: true}], or
    [{error: "Error while executing click"}] when the call throws. *)
Theorem click_success_or_error
    (engine : Engine) (req : Request) (w : World) (p : Page) :
  message req = "click" ->
  openPages w !! pageId req = Some p ->
  messageSwitch engine req w
  = (match engine (calls w) (PageClick p (selector req)) with
     | inl _ => inr (errorPayload "Error while executing click")
     | inr _ => inr (JObj [("success", JBool true)])
     end,
     logged w [PageClick p (selector req)]).
Proof.
  intros Hmsg Hp. enter_handler Hmsg Hp. now apply clickHandler_bound.
Qed.

Lemma click_success_or_error_witness :
  messageSwitch (quietEngine None) (typing "click" None) sampleWorld
  = (inr (JObj [("success", JBool true)]),
     logged sampleWorld [PageClick (PageHandle 0) "#q"]).
Proof.
  exact (click_success_or_error (quietEngine None) (typing "click" None)
           sampleWorld (PageHandle 0) eq_refl eq_refl).
Defined.

(** X4: [navigate] on a bound page makes exactly one engine call, a [goto]
    of the URL, and answers [undefined], or
    [{error: "Error while navigating"}] when the call throws; the page
    content is not read. *)
Theorem navigate_ack_or_error
    (engine : Engine) (req : Request) (w : World) (p : Page) :
  message req = "navigate" ->
  openPages w !! pageId req = Some p ->
  messageSwitch engine req w
  = (match engine (calls w) (Goto p (url req)) with
     | inl _ => inr (errorPayload "Error while navigating")
     | inr _ => inr JUndefined
     end,
     logged w [Goto p (url req)]).
Proof.
  intros Hmsg Hp. enter_handler Hmsg Hp. now apply navigate_bound.
Qed.

Lemma navigate_ack_or_error_witness :
  messageSwitch brokenEngine (request "navigate" "default") sampleWorld
  = (inr (errorPayload "Error while navigating"),
     logged sampleWorld [Goto (PageHandle 0) ""]).
Proof.
  exact (navigate_ack_or_error brokenEngine (request "navigate" "default")
           sampleWorld (PageHandle 0) eq_refl eq_refl).
Defined.

(** X5: [get_screenshot] on a bound page makes exactly one engine call, a
    screenshot with encoding ["base64"], and answers [{screenshot: data}]
    with the data the engine returned, or
    [{error: "Error while taking screenshot"}] when the call throws. *)
Theorem screenshot_data_or_error
    (engine : Engine) (req : Request) (w : World) (p : Page) :
  message req = "get_screenshot" ->
  openPages w !! pageId req = Some p ->
  messageSwitch engine req w
  = (match engine (calls w) (Screenshot p "base64") with
     | inl _ => inr (errorPayload "Error while taking screenshot")
     | inr data => inr (JObj [("screenshot", JStr data)])
     end,
     logged w [Screenshot p "base64"]).
Proof.
  intros Hmsg Hp. enter_handler Hmsg Hp. now apply getScreenshot_bound.
Qed.

Lemma screenshot_data_or_error_witness :
  messageSwitch (quietEngine None) (request "get_screenshot" "default")
    sampleWorld
  = (inr (JObj [("screenshot", JStr "aGVsbG8=")]),
     logged sampleWorld [Screenshot (PageHandle 0) "base64"]).
Proof.
  exact (screenshot_data_or_error (quietEngine None)
           (request "get_screenshot" "default") sampleWorld (PageHandle 0)
           eq_refl eq_refl).
Defined.

(** ** The handlers that let engine failures through *)

(** X6: [get_interactive_elements] on a bound page makes exactly one engine
    call, the in-page evaluation, and answers [{items}] with the array the
    evaluation returned, in its order; when the evaluation throws, the
    exception is the outcome of the dispatch. *)
Theorem interactive_elements_items_or_throw
    (engine : Engine) (req : Request) (w : World) (p : Page) :
  message req = "get_interactive_elements" ->
  openPages w !! pageId req = Some p ->
  messageSwitch engine req w
  = (match engine (calls w) (Evaluate p) with
     | inl e => inl e
     | inr items => inr (JObj [("items", JArr (map JElem items))])
     end,
     logged w [Evaluate p]).
Proof.
  intros Hmsg Hp. enter_handler Hmsg Hp.
  now apply getInteractiveElements_bound.
Qed.

Lemma interactive_elements_items_or_throw_witness :
  messageSwitch brokenEngine (request "get_interactive_elements" "default")
    sampleWorld
  = (inl (EngineError "Protocol error"),
     logged sampleWorld [Evaluate (PageHandle 0)]).
Proof.
  exact (interactive_elements_items_or_throw brokenEngine
           (request "get_interactive_elements" "default") sampleWorld
           (PageHandle 0) eq_refl eq_refl).
Defined.

(** X7: [observe] on a bound page answers
    [{error: "No snapshot available"}] when the engine returns no snapshot,
    and lets the exception through when the snapshot call throws. *)
Theorem observe_without_snapshot
    (engine : Engine) (req : Request) (w : World) (p : Page) :
  message req = "observe" ->
  openPages w !! pageId req = Some p ->
  (engine (calls w) (AccessibilitySnapshot p) = inr None ->
   messageSwitch engine req w
   = (inr (errorPayload "No snapshot available"),
      logged w [AccessibilitySnapshot p]))
  /\ (forall e,
        engine (calls w) (AccessibilitySnapshot p) = inl e ->
        messageSwitch engine req w
        = (inl e, logged w [AccessibilitySnapshot p])).
Proof.
  intros Hmsg Hp. enter_handler Hmsg Hp.
  rewrite (observe_bound engine req w p Hp).
  split; [intros Hsnap|intros e Hsnap]; now rewrite Hsnap.
Qed.

Lemma observe_without_snapshot_witness :
  messageSwitch (quietEngine None) (request "observe" "default") sampleWorld
  = (inr (errorPayload "No snapshot available"),
     logged sampleWorld [AccessibilitySnapshot (PageHandle 0)]).
Proof.
  exact (proj1 (observe_without_snapshot (quietEngine None)
                  (request "observe" "default") sampleWorld (PageHandle 0)
                  eq_refl eq_refl) eq_refl).
Defined.

(** X8: when the root of the snapshot has no [children] property, [observe]
    answers [{snapshot: []}]: the root itself is not listed.  When the root
    has the property, the root is the first item. *)
Theorem observe_root_item
    (engine : Engine) (req : Request) (w : World) (p : Page) (root : AXNode) :
  message req = "observe" ->
  openPages w !! pageId req = Some p ->
  engine (calls w) (AccessibilitySnapshot p) = inr (Some root) ->
  (children root = None ->
   messageSwitch engine req w
   = (inr (JObj [("snapshot", JArr [])]), logged w [AccessibilitySnapshot p]))
  /\ (forall cs,
        children root = Some cs ->
        exists rest,
          messageSwitch engine req w
          = (inr (JObj [("snapshot", JArr (JNode root :: rest))]),
             logged w [AccessibilitySnapshot p])).
Proof.
  intros Hmsg Hp Hsnap. enter_handler Hmsg Hp.
  rewrite (observe_bound engine req w p Hp), Hsnap.
  clear Hsnap. destruct root as [r n kids]. cbn [children].
  split.
  - intros ->. reflexivity.
  - intros cs ->. cbn. eauto.
Qed.

Lemma observe_root_item_witness :
  messageSwitch (quietEngine (Some nodeD)) (request "observe" "default")
    sampleWorld
  = (inr (JObj [("snapshot", JArr [])]),
     logged sampleWorld [AccessibilitySnapshot (PageHandle 0)]).
Proof.
  exact (proj1 (observe_root_item (quietEngine (Some nodeD))
                  (request "observe" "default") sampleWorld (PageHandle 0)
                  nodeD eq_refl eq_refl eq_refl) eq_refl).
Defined.

(** ** The revision that reads the page back *)

(** X9: in the revision whose [navigate] re-reads the page, [navigate] on a
    bound page goes to the URL and then reads the content, answering
    [{html}] with the content read after the navigation; a failure of either
    call is answered with [{error: "Error while navigating"}], and when the
    navigation fails the content is not read. *)
Theorem readBack_navigate_html
    (engine : Engine) (req : Request) (w : World) (p : Page) :
  message req = "navigate" ->
  openPages w !! pageId req = Some p ->
  ReadBack.messageSwitch engine req w
  = match engine (calls w) (Goto p (url req)) with
    | inl _ =>
        (inr (errorPayload "Error while navigating"),
         logged w [Goto p (url req)])
    | inr _ =>
        (match engine (calls w ++ [Goto p (url req)])%list (Content p) with
         | inl _ => inr (errorPayload "Error while navigating")
         | inr html => inr (JObj [("html", JStr html)])
         end,
         logged w [Goto p (url req); Content p])
    end.
Proof.
  intros Hmsg Hp. unfold ReadBack.messageSwitch. unfold_handler. rewrite Hp.
  unfold ReadBack.route. rewrite Hmsg. cbn [String.eqb Ascii.eqb Bool.eqb].
  now apply readBack_navigate_bound.
Qed.

Lemma readBack_navigate_html_witness :
  ReadBack.messageSwitch (quietEngine None) (request "navigate" "default")
    sampleWorld
  = (inr (JObj [("html", JStr "<html></html>")]),
     logged sampleWorld [Goto (PageHandle 0) ""; Content (PageHandle 0)]).
Proof.
  exact (readBack_navigate_html (quietEngine None)
           (request "navigate" "default") sampleWorld (PageHandle 0)
           eq_refl eq_refl).
Defined.

(** ** What a dispatch can do to the process state *)

Section DispatchEffect.

Variable engine : Engine.

(** Closes a goal [exists cs, world = logged-world /\ ...] at a leaf of the
    case analysis of a handler: zero, one or two calls were logged. *)
Ltac close_effect :=
  cbn [fst snd openPages b calls];
  first
    [ solve [ exists []; rewrite app_nil_r;
              split; [reflexivity|];
              split; [cbn; lia|]; intros q _; constructor ]
    | solve [ eexists (cons _ nil);
              split; [reflexivity|];
              split; [cbn; lia|];
              intros q [= <-]; repeat constructor ]
    | solve [ eexists (cons _ (cons _ nil)); rewrite <- app_assoc;
              split; [reflexivity|];
              split; [cbn; lia|];
              intros q [= <-]; repeat constructor ] ].

(** A dispatch leaves [openPages] and [b] as they were and adds at most two
    engine calls, each on the page the request's identifier is bound to. *)
Lemma messageSwitch_effect (req : Request) (w : World) :
  exists cs,
    snd (messageSwitch engine req w)
    = mkWorld (openPages w) (b w) (calls w ++ cs)
    /\ length cs <= 2
    /\ forall p, openPages w !! pageId req = Some p ->
                 Forall (fun c => targetPage c = Some p) cs.
Proof.
  destruct (openPages w !! pageId req) as [p|] eqn:Hp0;
    [|rewrite (messageSwitch_unbound_idle engine req w Hp0);
      exists []; rewrite app_nil_r; destruct w;
      split; [reflexivity|]; split; [cbn; lia|]; intros q _; constructor].
  revert Hp0. destruct w as [pages br log]. cbn [openPages b calls].
  intros Hp.
  unfold messageSwitch, route, observe, getInteractiveElements, typeText,
    getScreenshot, createPage, navigate, getHtml, clickHandler, inputText,
    moveMouse.
  unfold_handler. cbn [openPages b calls]. rewrite Hp.
  repeat match goal with
         | |- context [String.eqb (message req) ?c] =>
             destruct (String.eqb (message req) c)
         end.
  all: repeat (cbn [fst snd openPages b calls]; rewrite ?Hp;
               match goal with
               | |- context [engine ?h ?c] => destruct (engine h c)
               | |- context [truthy ?f] => destruct (truthy f)
               | |- context [match ?o with Some _ => _ | None => _ end] =>
                   is_var o; destruct o
               end).
  all: cbn [fst snd openPages b calls]; rewrite ?Hp.
  all: close_effect.
Qed.

End DispatchEffect.

Section DispatchOutcome.

Variable engine : Engine.

(** Outside the three handlers without [try]/[catch], every dispatch
    resolves. *)
Lemma messageSwitch_resolves (req : Request) (w : World) :
  ~ In (message req) uncaughtCommands ->
  exists v, fst (messageSwitch engine req w) = inr v.
Proof.
  intros Hnot.
  destruct (openPages w !! pageId req) as [p|] eqn:Hp; cycle 1.
  { destruct (inheritedName (pageId req)) eqn:Hinh;
      [|rewrite (messageSwitch_unbound engine req w Hp Hinh); eauto].
    rewrite (messageSwitch_inherited engine req w Hp Hinh).
    unfold route, observe, getInteractiveElements, typeText, getScreenshot,
      createPage, navigate, getHtml, clickHandler, inputText, moveMouse.
    unfold_handler.
    repeat match goal with
           | |- context [String.eqb (message req) ?c] =>
               destruct (String.eqb_spec (message req) c) as [E|_];
               [try (exfalso; apply Hnot; rewrite E; cbn; tauto)|]
           end.
    all: try destruct (truthy (click req)).
    all: repeat (progress (cbn [fst snd openPages b calls];
                           rewrite ?Hp, ?Hinh)).
    all: eauto. }
  rewrite (messageSwitch_bound engine req w p Hp). unfold route.
  repeat match goal with
         | |- context [String.eqb (message req) ?c] =>
             destruct (String.eqb_spec (message req) c) as [E|_];
             [try (exfalso; apply Hnot; rewrite E; cbn; tauto)|]
         end.
  - rewrite (typeText_bound engine req w p Hp).
    destruct (engine _ (KeyboardType _ _)); [eauto|].
    destruct (truthy (enter req)); [|eauto].
    destruct (engine _ (KeyboardPress _ _)); eauto.
  - rewrite (getScreenshot_bound engine req w p Hp).
    destruct (engine _ (Screenshot _ _)); eauto.
  - rewrite (createPage_bound engine req w p Hp). eauto.
  - rewrite (navigate_bound engine req w p Hp).
    destruct (engine _ (Goto _ _)); eauto.
  - rewrite (clickHandler_bound engine req w p Hp).
    destruct (engine _ (PageClick _ _)); eauto.
  - rewrite (inputText_bound engine req w p Hp).
    destruct (engine _ (PageType _ _ _ _)); [eauto|].
    destruct (truthy (enter req)); [|eauto].
    destruct (engine _ (KeyboardPress _ _)); eauto.
  - rewrite (moveMouse_bound engine req w p Hp).
    destruct (truthy (click req));
      [destruct (engine _ (MouseClick _ _ _))
      |destruct (engine _ (MouseMove _ _ _))]; eauto.
  - eauto.
Qed.

(** Unless the identifier reads as an inherited member, a dispatch throws
    only what the engine threw. *)
Lemma messageSwitch_throws_engine_error (req : Request) (w : World) (e : Exn) :
  lookupPage (openPages w) (pageId req) <> InheritedMember ->
  fst (messageSwitch engine req w) = inl e ->
  exists h c, engine h c = inl e.
Proof.
  intros Hslot. unfold lookupPage in Hslot.
  destruct (openPages w !! pageId req) as [p|] eqn:Hp; cycle 1.
  { destruct (inheritedName (pageId req)) eqn:Hinh; [congruence|].
    rewrite (messageSwitch_unbound engine req w Hp Hinh). discriminate. }
  clear Hslot.
  destruct (in_dec String.string_dec (message req) uncaughtCommands)
    as [Hin|Hnot].
  - rewrite (messageSwitch_bound engine req w p Hp). unfold route.
    destruct Hin as [<-|[<-|[<-|[]]]]; cbn [String.eqb Ascii.eqb Bool.eqb].
    + rewrite (getHtml_bound engine req w p Hp). cbn [fst].
      destruct (engine (calls w) (Content p)) eqn:E; [|discriminate].
      intros [= <-]. eauto.
    + rewrite (getInteractiveElements_bound engine req w p Hp). cbn [fst].
      destruct (engine (calls w) (Evaluate p)) eqn:E; [|discriminate].
      intros [= <-]. eauto.
    + rewrite (observe_bound engine req w p Hp). cbn [fst].
      destruct (engine (calls w) (AccessibilitySnapshot p)) as [e'|[root|]]
        eqn:E; try discriminate.
      intros [= <-]. eauto.
  - destruct (messageSwitch_resolves req w Hnot) as [v Hv].
    rewrite Hv. discriminate.
Qed.

End DispatchOutcome.

(** X10: a dispatch on a bound page leaves the registry and [b] as they
    were and makes at most two engine calls, every one of them on the page
    the request's identifier is bound to: no command reaches another page,
    the browser, or a new page. *)
Theorem dispatch_touches_only_its_page
    (engine : Engine) (req : Request) (w : World) (p : Page) :
  openPages w !! pageId req = Some p ->
  exists cs,
    snd (messageSwitch engine req w) = logged w cs
    /\ length cs <= 2
    /\ Forall (fun c => targetPage c = Some p) cs.
Proof.
  intros Hp.
  destruct (messageSwitch_effect engine req w) as [cs [Hw [Hlen Hpage]]].
  exists cs. split; [exact Hw|]. split; [exact Hlen|]. now apply Hpage.
Qed.

Lemma dispatch_touches_only_its_page_witness :
  exists cs,
    snd (messageSwitch (quietEngine None) (typing "input_text" (Some true))
           sampleWorld)
    = logged sampleWorld cs
    /\ length cs <= 2
    /\ Forall (fun c => targetPage c = Some (PageHandle 0)) cs.
Proof.
  exact (dispatch_touches_only_its_page (quietEngine None)
           (typing "input_text" (Some true)) sampleWorld (PageHandle 0)
           eq_refl).
Defined.

(** X11: provided the engine itself never raises a [TypeError], a dispatch
    fails with one exactly when the identifier has no page bound to it, names
    a member inherited from [Object.prototype], and the command is
    [get_html], [get_interactive_elements] or [observe].  On a bound
    identifier, or one that reads as [undefined], no handler reached through
    [messageSwitch] fails on its own. *)
Theorem dispatch_throws_only_engine_errors
    (engine : Engine) (req : Request) (w : World) :
  (forall h c, engine h c <> inl TypeError) ->
  fst (messageSwitch engine req w) = inl TypeError
  <-> (openPages w !! pageId req = None
       /\ In (pageId req) objectPrototypeKeys
       /\ In (message req) uncaughtCommands).
Proof.
  intros Hengine. split.
  - intros Hthrow.
    destruct (openPages w !! pageId req) as [p|] eqn:Hp.
    + destruct (messageSwitch_throws_engine_error engine req w TypeError)
        as [h [c Hc]]; [unfold lookupPage; now rewrite Hp|exact Hthrow|].
      destruct (Hengine h c Hc).
    + destruct (inheritedName (pageId req)) eqn:Hinh.
      * split; [reflexivity|]. split.
        -- unfold inheritedName in Hinh.
           apply existsb_exists in Hinh as [k [Hin Heq]].
           apply String.eqb_eq in Heq. now subst k.
        -- destruct (in_dec String.string_dec (message req) uncaughtCommands)
             as [Hin|Hnot]; [exact Hin|].
           destruct (messageSwitch_resolves engine req w Hnot) as [v Hv].
           rewrite Hv in Hthrow. discriminate.
      * rewrite (messageSwitch_unbound engine req w Hp Hinh) in Hthrow.
        discriminate.
  - intros [Hp [Hin Hcmd]].
    assert (Hinh : inheritedName (pageId req) = true).
    { unfold inheritedName. apply existsb_exists. exists (pageId req).
      split; [exact Hin|apply String.eqb_refl]. }
    rewrite (messageSwitch_inherited engine req w Hp Hinh). unfold route.
    destruct Hcmd as [<-|[<-|[<-|[]]]]; cbn [String.eqb Ascii.eqb Bool.eqb];
      unfold getHtml, getInteractiveElements, observe; unfold_handler;
      now rewrite Hp, Hinh.
Qed.

Lemma dispatch_throws_only_engine_errors_witness :
  fst (messageSwitch brokenEngine (request "get_html" "constructor")
         sampleWorld)
  = inl TypeError
  /\ fst (messageSwitch brokenEngine (request "get_html" "default")
            sampleWorld)
     <> inl TypeError.
Proof.
  assert (Hengine : forall h c, brokenEngine h c <> inl TypeError)
    by (intros h c; discriminate).
  split.
  - apply (proj2 (dispatch_throws_only_engine_errors brokenEngine
                    (request "get_html" "constructor") sampleWorld Hengine)).
    split; [reflexivity|]. split; cbn; tauto.
  - intros Hthrow.
    apply (proj1 (dispatch_throws_only_engine_errors brokenEngine
                    (request "get_html" "default") sampleWorld Hengine))
      in Hthrow.
    destruct Hthrow as [Hnone _]. discriminate Hnone.
Defined.

(** ** Frames in, frames out *)

(** X12: a frame that decodes to a command other than [get_html],
    [get_interactive_elements] and [observe] is answered with exactly one
    frame, whatever the engine does and whether or not the page is bound. *)
Theorem catching_commands_always_answer
    (engine : Engine) (JSON_parse : string -> option Request)
    (data : string) (req : Request) (w : World) (s : Socket) :
  JSON_parse data = Some req ->
  ~ In (message req) uncaughtCommands ->
  exists v,
    snd (onMessage engine JSON_parse data (w, s)) = send v s.
Proof.
  intros Hparse Hnot.
  rewrite (onMessage_decoded engine JSON_parse data req w s Hparse).
  destruct (messageSwitch_resolves engine req w Hnot) as [v Hv].
  exists v. now rewrite Hv.
Qed.

Lemma catching_commands_always_answer_witness :
  exists v,
    snd (onMessage brokenEngine (tableParse [request "navigate" "default"])
           (frameOf "navigate" "default")
           (sampleWorld, onConnection sampleWorld))
    = send v (onConnection sampleWorld).
Proof.
  apply (catching_commands_always_answer brokenEngine
           (tableParse [request "navigate" "default"])
           (frameOf "navigate" "default") (request "navigate" "default")
           sampleWorld (onConnection sampleWorld)).
  - reflexivity.
  - cbn. intuition discriminate.
Defined.

(** X13: when the engine call of [get_html], [get_interactive_elements] or
    [observe] throws on a bound page, the message callback sends nothing in
    reply: that one call is made and the outbox is as it was. *)
Theorem uncaught_commands_stay_silent
    (engine : Engine) (JSON_parse : string -> option Request)
    (data : string) (req : Request) (w : World) (s : Socket) (p : Page) :
  JSON_parse data = Some req ->
  openPages w !! pageId req = Some p ->
  (message req = "get_html" ->
   forall e, engine (calls w) (Content p) = inl e ->
   outbox (snd (onMessage engine JSON_parse data (w, s))) = outbox s
   /\ fst (onMessage engine JSON_parse data (w, s)) = logged w [Content p])
  /\ (message req = "get_interactive_elements" ->
      forall e, engine (calls w) (Evaluate p) = inl e ->
      outbox (snd (onMessage engine JSON_parse data (w, s))) = outbox s
      /\ fst (onMessage engine JSON_parse data (w, s))
         = logged w [Evaluate p])
  /\ (message req = "observe" ->
      forall e, engine (calls w) (AccessibilitySnapshot p) = inl e ->
      outbox (snd (onMessage engine JSON_parse data (w, s))) = outbox s
      /\ fst (onMessage engine JSON_parse data (w, s))
         = logged w [AccessibilitySnapshot p]).
Proof.
  intros Hparse Hp.
  rewrite (onMessage_decoded engine JSON_parse data req w s Hparse).
  rewrite (messageSwitch_bound engine req w p Hp). unfold route.
  split; [|split]; intros Hmsg e He; rewrite Hmsg;
    cbn [String.eqb Ascii.eqb Bool.eqb].
  - rewrite (getHtml_bound engine req w p Hp), He. cbn [fst snd replies outbox].
    now rewrite app_nil_r.
  - rewrite (getInteractiveElements_bound engine req w p Hp), He.
    cbn [fst snd replies outbox]. now rewrite app_nil_r.
  - rewrite (observe_bound engine req w p Hp), He.
    cbn [fst snd replies outbox]. now rewrite app_nil_r.
Qed.

Lemma uncaught_commands_stay_silent_witness :
  outbox (snd (onMessage brokenEngine sampleParse getHtmlFrame
                 (sampleWorld, onConnection sampleWorld)))
  = outbox (onConnection sampleWorld)
  /\ fst (onMessage brokenEngine sampleParse getHtmlFrame
            (sampleWorld, onConnection sampleWorld))
     = logged sampleWorld [Content (PageHandle 0)].
Proof.
  exact (proj1 (uncaught_commands_stay_silent brokenEngine sampleParse
                  getHtmlFrame (request "get_html" "default") sampleWorld
                  (onConnection sampleWorld) (PageHandle 0) eq_refl eq_refl)
           eq_refl (EngineError "Protocol error") eq_refl).
Defined.

(** X14: requests on identifiers that have no page bound to them change
    nothing, whatever their commands and however many they are: the state
    after dispatching them is the state before, so no engine call was made
    and no page was bound.  This covers [create_page] and identifiers that
    name inherited members. *)
Theorem unbound_requests_change_nothing
    (engine : Engine) (reqs : list Request) (w : World) :
  Forall (fun req => openPages w !! pageId req = None) reqs ->
  run engine reqs w = w.
Proof.
  unfold run. induction 1 as [|req reqs Hreq _ IH]; [reflexivity|].
  cbn [fold_left]. now rewrite (messageSwitch_unbound_idle engine req w Hreq).
Qed.

Lemma unbound_requests_change_nothing_witness :
  run (quietEngine None)
    [request "create_page" "tab1"; request "navigate" "constructor";
     request "get_html" "toString"; request "click" "tab1"]
    sampleWorld
  = sampleWorld.
Proof.
  apply (unbound_requests_change_nothing (quietEngine None)).
  repeat constructor.
Defined.

(** X15: an identifier that has no page bound to it but names a member
    inherited from [Object.prototype] passes the guard.  [create_page] then
    answers [{error: "Page already exists"}], each handler with a
    [try]/[catch] answers its own error payload, an unknown command answers
    [{error: "No message found"}], and [get_html],
    [get_interactive_elements] and [observe] fail with a [TypeError]; in
    every case the state is unchanged and no engine call is made. *)
Theorem inherited_name_passes_guard
    (engine : Engine) (req : Request) (w : World) :
  openPages w !! pageId req = None ->
  In (pageId req) objectPrototypeKeys ->
  (message req = "create_page" ->
   messageSwitch engine req w = (inr (errorPayload "Page already exists"), w))
  /\ (message req = "navigate" ->
      messageSwitch engine req w
      = (inr (errorPayload "Error while navigating"), w))
  /\ (message req = "click" ->
      messageSwitch engine req w
      = (inr (errorPayload "Error while executing click"), w))
  /\ (message req = "input_text" ->
      messageSwitch engine req w
      = (inr (errorPayload "Error while typing"), w))
  /\ (message req = "type_text" ->
      messageSwitch engine req w = (inr (errorPayload "Could not type"), w))
  /\ (message req = "move_mouse" ->
      messageSwitch engine req w
      = (inr (errorPayload "Could not move mouse"), w))
  /\ (message req = "get_screenshot" ->
      messageSwitch engine req w
      = (inr (errorPayload "Error while taking screenshot"), w))
  /\ (In (message req) uncaughtCommands ->
      messageSwitch engine req w = (inl TypeError, w))
  /\ (~ In (message req) knownCommands ->
      messageSwitch engine req w = (inr (errorPayload "No message found"), w)).
Proof.
  intros Hp Hin.
  assert (Hinh : inheritedName (pageId req) = true).
  { unfold inheritedName. apply existsb_exists. exists (pageId req).
    split; [exact Hin|apply String.eqb_refl]. }
  rewrite (messageSwitch_inherited engine req w Hp Hinh).
  repeat match goal with |- _ /\ _ => split end.
  1-7: intros Hmsg; unfold route; rewrite Hmsg;
    cbn [String.eqb Ascii.eqb Bool.eqb];
    unfold createPage, navigate, clickHandler, inputText, typeText, moveMouse,
      getScreenshot;
    unfold_handler; rewrite Hp, Hinh; try reflexivity.
  - now destruct (truthy (click req)).
  - unfold route. intros [<-|[<-|[<-|[]]]];
      cbn [String.eqb Ascii.eqb Bool.eqb];
      unfold getHtml, getInteractiveElements, observe; unfold_handler;
      now rewrite Hp, Hinh.
  - intros Hnot. now rewrite (route_unknown engine req Hnot).
Qed.

Lemma inherited_name_passes_guard_witness :
  messageSwitch (quietEngine None) (request "create_page" "constructor")
    sampleWorld
  = (inr (errorPayload "Page already exists"), sampleWorld).
Proof.
  apply (inherited_name_passes_guard (quietEngine None)
           (request "create_page" "constructor") sampleWorld).
  - reflexivity.
  - cbn. tauto.
  - reflexivity.
Defined.

(** ** Start-up *)

(** X16: when the launch succeeds and the browser reports at least one page,
    the start-up closure assigns [b], binds ["default"] to the first page
    reported and to nothing else, and a connection made afterwards is told
    the browser is up. *)
Theorem startup_binds_first_page
    (engine : Engine) (br : Browser) (first : Page) (others : list Page) :
  engine [] (Launch "firefox" false) = inr br ->
  engine [Launch "firefox" false] (Pages br) = inr (first :: others) ->
  openPages (snd (startup engine initialWorld)) !! "default" = Some first
  /\ (forall id, id <> "default" ->
        openPages (snd (startup engine initialWorld)) !! id = None)
  /\ b (snd (startup engine initialWorld)) = Some br
  /\ outbox (onConnection (snd (startup engine initialWorld)))
     = [JObj [("messge", JStr "browser_status"); ("status", JStr "up")]].
Proof.
  intros Hlaunch Hpages.
  rewrite (startup_seeds_default engine br first others Hlaunch Hpages).
  cbn [snd openPages b]. split; [apply lookup_insert_eq|].
  split; [|split; reflexivity].
  intros id Hid. rewrite lookup_insert_ne by congruence. apply lookup_empty.
Qed.

Lemma startup_binds_first_page_witness :
  openPages (snd (startup (quietEngine None) initialWorld)) !! "default"
  = Some (PageHandle 0)
  /\ (forall id, id <> "default" ->
        openPages (snd (startup (quietEngine None) initialWorld)) !! id = None)
  /\ b (snd (startup (quietEngine None) initialWorld)) = Some FirefoxBrowser
  /\ outbox (onConnection (snd (startup (quietEngine None) initialWorld)))
     = [JObj [("messge", JStr "browser_status"); ("status", JStr "up")]].
Proof.
  exact (startup_binds_first_page (quietEngine None) FirefoxBrowser
           (PageHandle 0) [] eq_refl eq_refl).
Defined.

(** X17: when the launch succeeds but the browser reports no page,
    [pages[0]] is [undefined]: [b] is assigned while no identifier resolves,
    so a connection is told the browser is up although ["default"] is not
    bound. *)
Theorem startup_without_pages
    (engine : Engine) (br : Browser) :
  engine [] (Launch "firefox" false) = inr br ->
  engine [Launch "firefox" false] (Pages br) = inr [] ->
  startup engine initialWorld
  = (inr tt, mkWorld ∅ (Some br) [Launch "firefox" false; Pages br]).
Proof.
  intros Hlaunch Hpages. unfold startup, writeBrowser. unfold_handler.
  cbn [initialWorld calls openPages b]. rewrite Hlaunch.
  cbn [calls openPages b app]. now rewrite Hpages.
Qed.

Lemma startup_without_pages_witness :
  startup pagelessEngine initialWorld
  = (inr tt,
     mkWorld ∅ (Some FirefoxBrowser)
             [Launch "firefox" false; Pages FirefoxBrowser]).
Proof.
  exact (startup_without_pages pagelessEngine FirefoxBrowser eq_refl eq_refl).
Defined.

(** X18: when the launch itself throws, the start-up closure stops there:
    [b] stays unassigned, the registry stays empty and the page query is
    never made. *)
Theorem startup_launch_failure (engine : Engine) (e : Exn) :
  engine [] (Launch "firefox" false) = inl e ->
  startup engine initialWorld
  = (inl e, mkWorld ∅ None [Launch "firefox" false]).
Proof.
  intros Hlaunch. unfold startup, writeBrowser. unfold_handler.
  cbn [initialWorld calls openPages b]. now rewrite Hlaunch.
Qed.

Lemma startup_launch_failure_witness :
  startup brokenEngine initialWorld
  = (inl (EngineError "Protocol error"),
     mkWorld ∅ None [Launch "firefox" false]).
Proof.
  exact (startup_launch_failure brokenEngine (EngineError "Protocol error")
           eq_refl).
Defined.

(** ** The in-page callback *)

Lemma setAttribute_twice (attr value : string) (ele : DomElement) :
  setAttribute attr value (setAttribute attr value ele)
  = setAttribute attr value ele.
Proof.
  unfold setAttribute. cbn. f_equal. apply insert_insert_eq.
Qed.

(** X19: the callback returns one item per matched element and leaves one
    element per matched element, in order.  The item at position [i] carries
    the properties read from the element matched at position [i] and the
    decimal numeral of [i] as [assigned]; the element left at position [i] is
    that same element with its [assign-id] attribute set to the same
    numeral and nothing else changed. *)
Theorem assigned_index_matches_attribute
    (matched : list DomElement) (i : nat) (ele : DomElement) :
  matched !! i = Some ele ->
  length (fst (collectInteractive matched)) = length matched
  /\ length (snd (collectInteractive matched)) = length matched
  /\ fst (collectInteractive matched) !! i
     = Some (mkInteractiveElement
               (el_checkVisibility ele) (el_className ele) (el_ariaLabel ele)
               (el_ariaDescription ele) (el_ariaRoleDescription ele)
               (el_href ele) (el_innerText ele) (el_id ele) (pretty i)
               (el_tagName ele) (el_type ele) (el_value ele))
  /\ snd (collectInteractive matched) !! i
     = Some (mkDomElement
               (el_checkVisibility ele) (el_className ele) (el_ariaLabel ele)
               (el_ariaDescription ele) (el_ariaRoleDescription ele)
               (el_href ele) (el_innerText ele) (el_id ele) (el_tagName ele)
               (el_type ele) (el_value ele)
               (<["assign-id" := pretty i]> (el_attributes ele))).
Proof.
  unfold collectInteractive. cbn [fst snd]. intros Hele.
  split; [apply length_imap|]. split; [apply length_imap|].
  rewrite !list_lookup_imap, Hele. split; reflexivity.
Qed.

Lemma assigned_index_matches_attribute_witness :
  fst (collectInteractive [sampleElement "cancel"; sampleElement "ok"]) !! 1
  = Some (mkInteractiveElement true "ok" None None None None "" "" "1"
            "BUTTON" None None)
  /\ snd (collectInteractive [sampleElement "cancel"; sampleElement "ok"]) !! 1
     = Some (mkDomElement true "ok" None None None None "" "" "BUTTON" None
               None (<["assign-id" := "1"]> ∅)).
Proof.
  exact (proj2 (proj2 (assigned_index_matches_attribute
                         [sampleElement "cancel"; sampleElement "ok"] 1
                         (sampleElement "ok") eq_refl))).
Defined.

(** X20: the [assigned] strings of the items the callback returns are
    pairwise different, so each one names a single element. *)
Theorem assigned_indices_distinct (matched : list DomElement) :
  NoDup (ie_assigned <$> fst (collectInteractive matched)).
Proof.
  unfold collectInteractive. cbn [fst].
  assert (Hidx : ie_assigned
                   <$> imap (fun index ele =>
                               describeElement index
                                 (setAttribute "assign-id" (pretty index) ele))
                            matched
                 = pretty <$> seq 0 (length matched)).
  { rewrite <- imap_seq_0. apply list_eq. intros i.
    rewrite list_lookup_fmap, !list_lookup_imap.
    now destruct (matched !! i). }
  rewrite Hidx. apply NoDup_fmap_2; [apply _|apply NoDup_seq].
Qed.

(** X21: running the callback again on the elements it left behind returns
    the same items and leaves the elements unchanged. *)
Theorem collectInteractive_stable (matched : list DomElement) :
  collectInteractive (snd (collectInteractive matched))
  = collectInteractive matched.
Proof.
  unfold collectInteractive. cbn [snd].
  f_equal; apply list_eq; intros i; rewrite !list_lookup_imap;
    destruct (matched !! i) as [ele|]; cbn; try reflexivity;
    now rewrite setAttribute_twice.
Qed.
